(** * GymApp: session store, service facade and screen controllers

    A shallow embedding of the orchestration layer of the application:
    - [services/supabase.ts]   (authService, profileService, followService,
                                workoutService),
    - [contexts/AuthContext.tsx] (the session store),
    - [components/FollowButton.tsx], [components/WorkoutCard.tsx],
    - [screens/UserProfileScreen.tsx], [screens/HomeScreen.tsx],
      [screens/FollowingScreen.tsx], [screens/WorkoutsScreen.tsx],
      [screens/ProfileScreen.tsx],
    - [navigation/AppNavigator.tsx].

    Asynchronous functions are written in a state monad with exceptions.
    The hosted backend reached through the generated client is an external
    collaborator; it is represented by an executable in-memory [World]
    whose requests can be served, answered with an error, or rejected
    (thrown), following a script carried by the world. *)

From Stdlib Require Import String List Bool Arith ZArith Lia Permutation.
From Stdlib Require Import DecimalString Sorted.
Import ListNotations.
Open Scope string_scope.
Open Scope list_scope.

(* ===================================================================== *)
(** * A state monad whose exceptions keep the state reached so far        *)
(* ===================================================================== *)

Inductive Res (A : Type) : Type :=
| Ret (a : A)
| Exn.
Arguments Ret {A} a.
Arguments Exn {A}.

Definition M (S A : Type) : Type := S -> Res A * S.

Definition ret {S A} (a : A) : M S A := fun s => (Ret a, s).

Definition bind {S A B} (m : M S A) (k : A -> M S B) : M S B :=
  fun s => match m s with
           | (Ret a, s') => k a s'
           | (Exn, s') => (Exn, s')
           end.

Definition get {S} : M S S := fun s => (Ret s, s).
Definition modify {S} (f : S -> S) : M S unit := fun s => (Ret tt, f s).

(** [try { body } catch { handler }] *)
Definition try_catch {S A} (body : M S A) (handler : M S A) : M S A :=
  fun s => match body s with
           | (Ret a, s') => (Ret a, s')
           | (Exn, s') => handler s'
           end.

(** [try { body } finally { fin }]: [fin] runs on both exits; the outcome
    of [body] is kept unless [fin] itself throws. *)
Definition try_finally {S A} (body : M S A) (fin : M S unit) : M S A :=
  fun s => match body s with
           | (r, s') => match fin s' with
                        | (Ret _, s'') => (r, s'')
                        | (Exn, s'') => (Exn, s'')
                        end
           end.

(** [Promise.all]: every call is started, and the rejection of one of
    them surfaces when the results are awaited. *)
Definition attempt {S A} (m : M S A) : M S (Res A) :=
  fun s => match m s with (r, s') => (Ret r, s') end.

Definition settle {S A} (r : Res A) : M S A := fun s => (r, s).

(** Run a computation on the second component of a pair of states. *)
Definition liftW {U W A} (m : M W A) : M (U * W) A :=
  fun s => match m (snd s) with (r, w') => (r, (fst s, w')) end.

(** Update the first component (the component's own React state). *)
Definition setU {U W} (f : U -> U) : M (U * W) unit :=
  fun s => (Ret tt, (f (fst s), snd s)).

Declare Scope monad_scope.
Delimit Scope monad_scope with monad.
Notation "x <- m ;; k" := (bind m (fun x => k))
  (at level 61, m at next level, right associativity) : monad_scope.
Notation "m ;;; k" := (bind m (fun _ => k))
  (at level 61, right associativity) : monad_scope.
Open Scope monad_scope.

(* ===================================================================== *)
(** * Values exchanged with the backend                                   *)
(* ===================================================================== *)

(** The facade's [error: any]: either a plain string produced locally
    (["Not authenticated"], ['No user logged in']) or an error object of
    the client with a [code] and a [message]. *)
Inductive Err : Type :=
| Msg (s : string)
| Remote (code message : string).

(** JavaScript truthiness of an [error] value, as tested by [if (error)]. *)
Definition truthy (e : option Err) : bool :=
  match e with
  | None => false
  | Some (Msg s) => negb (s =? "")
  | Some (Remote _ _) => true
  end.

(** [error?.code] *)
Definition err_code (e : option Err) : option string :=
  match e with
  | Some (Remote c _) => Some c
  | _ => None
  end.

Definition opt_string_eqb (a : option string) (b : string) : bool :=
  match a with
  | Some x => x =? b
  | None => false
  end.

Definition is_some {A} (o : option A) : bool :=
  match o with Some _ => true | None => false end.

(** [{ data, error }] *)
Record Result (A : Type) : Type := mkResult {
  data : option A;
  error : option Err
}.
Arguments mkResult {A} data error.
Arguments data {A} r.
Arguments error {A} r.

Record User : Type := mkUser {
  user_id : string;
  user_email : string
}.

Record Session : Type := mkSession {
  session_user : User;
  access_token : string
}.

Record Account : Type := mkAccount {
  acc_user : User;
  acc_password : string
}.

Record Profile : Type := mkProfile {
  profile_id : string;
  username : option string;
  full_name : option string;
  bio : option string;
  updated_at : nat
}.

(** [Partial<Profile>]: a field that is [None] is not part of the update. *)
Record ProfileUpdates : Type := mkUpdates {
  upd_username : option string;
  upd_full_name : option string;
  upd_bio : option string
}.

Record Follow : Type := mkFollow {
  follower_id : string;
  following_id : string
}.

Record Like : Type := mkLike {
  like_user_id : string;
  like_workout_id : string
}.

Record WorkoutRow : Type := mkWorkoutRow {
  workout_id : string;
  workout_user_id : string;
  title : string;
  is_public : bool;
  created_at : nat
}.

(** The [Insert] shape of the workouts table, as far as it is used here. *)
Record WorkoutInsert : Type := mkWorkoutInsert {
  ins_user_id : string;
  ins_title : string;
  ins_is_public : bool
}.

Record Exercise : Type := mkExercise {
  exercise_workout_id : string;
  exercise_name : string
}.

(** A workout as the list queries return it: the row together with the
    joined profile summary, its exercises and the [user_id]s of its likes. *)
Record Workout : Type := mkWorkout {
  row : WorkoutRow;
  profiles_join : option Profile;
  exercises_join : list Exercise;
  workout_likes_join : list string
}.

(* ===================================================================== *)
(** * The backend as an in-memory world                                   *)
(* ===================================================================== *)

(** What the next request meets: it is served, it is answered with an
    error value, or the call rejects. *)
Inductive Fault : Type :=
| Serve
| Fail (code message : string)
| Throw.

(** Requests issued to the backend, recorded in order. *)
Inductive Request : Type :=
| RqGetUser
| RqGetSession
| RqSignIn (email : string)
| RqSignUp (email : string)
| RqSignOut
| RqSelectProfile (id : string)
| RqUpdateProfile (id : string) (u : ProfileUpdates)
| RqInsertFollow (f : Follow)
| RqDeleteFollow (f : Follow)
| RqSelectFollowSingle (f : Follow)
| RqCountFollowers (id : string)
| RqCountFollowing (id : string)
| RqSelectFollowing (follower : string)
| RqInsertWorkout (w : WorkoutInsert)
| RqSelectUserWorkouts (owner : string)
| RqSelectPublicWorkouts (limit : nat)
| RqSelectWorkoutsIn (owners : list string)
| RqSelectLikeSingle (l : Like)
| RqInsertLike (l : Like)
| RqDeleteLike (l : Like).

Record World : Type := mkWorld {
  accounts : list Account;
  auth_session : option Session;      (* the session held by the client *)
  pending : list (option Session);    (* session changes not yet delivered *)
  profiles : list Profile;
  follows : list Follow;
  workouts : list WorkoutRow;
  exercises : list Exercise;
  workout_likes : list Like;
  clock : nat;
  faults : list Fault;                (* what the coming requests meet *)
  log : list Request                  (* requests issued, oldest first *)
}.

Definition with_session (x : option Session) (w : World) : World :=
  mkWorld (accounts w) x (pending w) (profiles w) (follows w) (workouts w)
          (exercises w) (workout_likes w) (clock w) (faults w) (log w).
Definition with_accounts (x : list Account) (w : World) : World :=
  mkWorld x (auth_session w) (pending w) (profiles w) (follows w) (workouts w)
          (exercises w) (workout_likes w) (clock w) (faults w) (log w).
Definition with_pending (x : list (option Session)) (w : World) : World :=
  mkWorld (accounts w) (auth_session w) x (profiles w) (follows w) (workouts w)
          (exercises w) (workout_likes w) (clock w) (faults w) (log w).
Definition with_profiles (x : list Profile) (w : World) : World :=
  mkWorld (accounts w) (auth_session w) (pending w) x (follows w) (workouts w)
          (exercises w) (workout_likes w) (clock w) (faults w) (log w).
Definition with_follows (x : list Follow) (w : World) : World :=
  mkWorld (accounts w) (auth_session w) (pending w) (profiles w) x (workouts w)
          (exercises w) (workout_likes w) (clock w) (faults w) (log w).
Definition with_workouts (x : list WorkoutRow) (w : World) : World :=
  mkWorld (accounts w) (auth_session w) (pending w) (profiles w) (follows w) x
          (exercises w) (workout_likes w) (clock w) (faults w) (log w).
Definition with_likes (x : list Like) (w : World) : World :=
  mkWorld (accounts w) (auth_session w) (pending w) (profiles w) (follows w)
          (workouts w) (exercises w) x (clock w) (faults w) (log w).
Definition with_clock (x : nat) (w : World) : World :=
  mkWorld (accounts w) (auth_session w) (pending w) (profiles w) (follows w)
          (workouts w) (exercises w) (workout_likes w) x (faults w) (log w).
Definition with_faults (x : list Fault) (w : World) : World :=
  mkWorld (accounts w) (auth_session w) (pending w) (profiles w) (follows w)
          (workouts w) (exercises w) (workout_likes w) (clock w) x (log w).
Definition with_log (x : list Request) (w : World) : World :=
  mkWorld (accounts w) (auth_session w) (pending w) (profiles w) (follows w)
          (workouts w) (exercises w) (workout_likes w) (clock w) (faults w) x.

(** The fault the next request meets; an exhausted script serves. *)
Definition next_fault (w : World) : Fault :=
  match faults w with
  | [] => Serve
  | f :: _ => f
  end.

(** One round trip: the request is recorded, the script is advanced, and
    the answer is computed by [serve] on the tables, or built from the
    error by [failed], or the call rejects. *)
Definition request {A} (rq : Request) (failed : Err -> A)
           (serve : World -> A * World) : M World A :=
  fun w =>
    let w1 := with_faults (tl (faults w)) (with_log (log w ++ [rq]) w) in
    match next_fault w with
    | Serve => let (a, w2) := serve w1 in (Ret a, w2)
    | Fail c m => (Ret (failed (Remote c m)), w1)
    | Throw => (Exn, w1)
    end.

Definition follow_eqb (a b : Follow) : bool :=
  (follower_id a =? follower_id b) && (following_id a =? following_id b).

Definition like_eqb (a b : Like) : bool :=
  (like_user_id a =? like_user_id b) && (like_workout_id a =? like_workout_id b).

(** [.single()]: exactly one row is the row; none or several is the
    error coded PGRST116. *)
Definition PGRST116 : Err :=
  Remote "PGRST116" "JSON object requested, multiple (or no) rows returned".

Definition single {A} (rows : list A) : Result A :=
  match rows with
  | [r] => mkResult (Some r) None
  | _ => mkResult None (Some PGRST116)
  end.

(** A violated uniqueness constraint. *)
Definition duplicate_key : Err :=
  Remote "23505" "duplicate key value violates unique constraint".

(** [supabase.auth.getUser()]: the user of the client's current session,
    or none.  The lookup is recorded; it is not a table request and does
    not draw from the script. *)
Definition auth_getUser : M World (option User) :=
  fun w => (Ret (option_map session_user (auth_session w)),
            with_log (log w ++ [RqGetUser]) w).

(* ===================================================================== *)
(** * services/supabase.ts                                                 *)
(* ===================================================================== *)

Definition NotAuthenticated : Err := Msg "Not authenticated".

Module authService.

Definition find_account (email password : string) (w : World) : option Account :=
  find (fun a => (user_email (acc_user a) =? email) && (acc_password a =? password))
       (accounts w).

Definition token_of (u : User) (w : World) : string :=
  (user_id u ++ "." ++ NilZero.string_of_uint (Nat.to_uint (clock w)))%string.

(** [supabase.auth.signInWithPassword]: a served sign-in with matching
    credentials installs a session in the client and queues a
    session-change notification. *)
Definition signIn (email password : string) : M World (Result Session) :=
  request (RqSignIn email)
    (fun e => mkResult None (Some e))
    (fun w =>
       match find_account email password w with
       | Some a =>
           let s := mkSession (acc_user a) (token_of (acc_user a) w) in
           (mkResult (Some s) None,
            with_clock (S (clock w))
              (with_pending (pending w ++ [Some s]) (with_session (Some s) w)))
       | None =>
           (mkResult None (Some (Remote "invalid_credentials" "Invalid login credentials")), w)
       end).

(** [supabase.auth.signUp]: creates the account and its default profile. *)
Definition signUp (email password : string) (fullName : option string)
  : M World (Result Session) :=
  request (RqSignUp email)
    (fun e => mkResult None (Some e))
    (fun w =>
       if existsb (fun a => user_email (acc_user a) =? email) (accounts w)
       then (mkResult None (Some (Remote "user_already_exists" "User already registered")), w)
       else
         let u := mkUser ("u" ++ NilZero.string_of_uint (Nat.to_uint (clock w)))%string email in
         let s := mkSession u (token_of u w) in
         (mkResult (Some s) None,
          with_clock (S (clock w))
            (with_pending (pending w ++ [Some s])
               (with_session (Some s)
                  (with_profiles (profiles w ++ [mkProfile (user_id u) None fullName None (clock w)])
                     (with_accounts (accounts w ++ [mkAccount u password]) w)))))).

(** [supabase.auth.signOut]: a served sign-out drops the client's
    session and queues the notification that carries no session. *)
Definition signOut : M World (Result unit) :=
  request RqSignOut
    (fun e => mkResult None (Some e))
    (fun w => (mkResult None None,
               with_pending (pending w ++ [None]) (with_session None w))).

Definition getCurrentSession : M World (Result Session) :=
  request RqGetSession
    (fun e => mkResult None (Some e))
    (fun w => (mkResult (auth_session w) None, w)).

End authService.

Module profileService.

Definition getProfile (userId : string) : M World (Result Profile) :=
  request (RqSelectProfile userId)
    (fun e => mkResult None (Some e))
    (fun w => (single (filter (fun p => profile_id p =? userId) (profiles w)), w)).

Definition or_else {A} (o : option A) (d : option A) : option A :=
  match o with Some x => Some x | None => d end.

Definition apply_updates (now : nat) (u : ProfileUpdates) (p : Profile) : Profile :=
  mkProfile (profile_id p)
            (or_else (upd_username u) (username p))
            (or_else (upd_full_name u) (full_name p))
            (or_else (upd_bio u) (bio p))
            now.

Definition updateProfile (userId : string) (updates : ProfileUpdates)
  : M World (Result Profile) :=
  request (RqUpdateProfile userId updates)
    (fun e => mkResult None (Some e))
    (fun w =>
       let upd p := if profile_id p =? userId
                    then apply_updates (clock w) updates p else p in
       let ps := map upd (profiles w) in
       (single (filter (fun p => profile_id p =? userId) ps),
        with_clock (S (clock w)) (with_profiles ps w))).

End profileService.

Record IsFollowingResult : Type := mkIsFollowing {
  isFollowing_field : bool;
  isFollowing_error : option Err
}.

Record CountResult : Type := mkCount {
  count : nat;
  count_error : option Err
}.

Module followService.

(** Insert into [follows]; the ordered pair is unique. *)
Definition insert_follow (f : Follow) : M World (Result unit) :=
  request (RqInsertFollow f)
    (fun e => mkResult None (Some e))
    (fun w =>
       if existsb (follow_eqb f) (follows w)
       then (mkResult None (Some duplicate_key), w)
       else (mkResult None None, with_follows (follows w ++ [f]) w)).

Definition delete_follow (f : Follow) : M World (Result unit) :=
  request (RqDeleteFollow f)
    (fun e => mkResult None (Some e))
    (fun w => (mkResult None None,
               with_follows (filter (fun g => negb (follow_eqb f g)) (follows w)) w)).

Definition select_follow_single (f : Follow) : M World (Result Follow) :=
  request (RqSelectFollowSingle f)
    (fun e => mkResult None (Some e))
    (fun w => (single (filter (follow_eqb f) (follows w)), w)).

(* Follow a user *)
Definition followUser (followingId : string) : M World (Result unit) :=
  user <- auth_getUser ;;
  match user with
  | None => ret (mkResult None (Some NotAuthenticated))
  | Some u => insert_follow (mkFollow (user_id u) followingId)
  end.

(* Unfollow a user *)
Definition unfollowUser (followingId : string) : M World (Result unit) :=
  user <- auth_getUser ;;
  match user with
  | None => ret (mkResult None (Some NotAuthenticated))
  | Some u => delete_follow (mkFollow (user_id u) followingId)
  end.

(* Check if following a user *)
Definition isFollowing (followingId : string) : M World IsFollowingResult :=
  user <- auth_getUser ;;
  match user with
  | None => ret (mkIsFollowing false (Some NotAuthenticated))
  | Some u =>
      r <- select_follow_single (mkFollow (user_id u) followingId) ;;
      ret (mkIsFollowing
             (is_some (data r))
             (if opt_string_eqb (err_code (error r)) "PGRST116"
              then None else error r))
  end.

(* Get followers count *)
Definition getFollowersCount (userId : string) : M World CountResult :=
  request (RqCountFollowers userId)
    (fun e => mkCount 0 (Some e))
    (fun w => (mkCount (length (filter (fun f => following_id f =? userId) (follows w))) None, w)).

(* Get following count *)
Definition getFollowingCount (userId : string) : M World CountResult :=
  request (RqCountFollowing userId)
    (fun e => mkCount 0 (Some e))
    (fun w => (mkCount (length (filter (fun f => follower_id f =? userId) (follows w))) None, w)).

End followService.

Record ToggleResult : Type := mkToggle {
  liked : option bool;
  toggle_error : option Err
}.

Module workoutService.

(** The joins of the list queries: profile summary of the owner, the
    workout's exercises, and the [user_id] of each of its likes. *)
Definition likes_of (workoutId : string) (ls : list Like) : list Like :=
  filter (fun l => like_workout_id l =? workoutId) ls.

Definition enrich (w : World) (r : WorkoutRow) : Workout :=
  mkWorkout r
    (find (fun p => profile_id p =? workout_user_id r) (profiles w))
    (filter (fun e => exercise_workout_id e =? workout_id r) (exercises w))
    (map like_user_id (likes_of (workout_id r) (workout_likes w))).

(** [.order("created_at", { ascending: false })] *)
Fixpoint insert_desc (r : WorkoutRow) (l : list WorkoutRow) : list WorkoutRow :=
  match l with
  | [] => [r]
  | x :: t => if Nat.ltb (created_at x) (created_at r) then r :: l else x :: insert_desc r t
  end.

Definition order_desc (l : list WorkoutRow) : list WorkoutRow :=
  fold_right insert_desc [] l.

Definition select_workouts (rq : Request) (keep : WorkoutRow -> bool)
           (limit : option nat) : M World (Result (list Workout)) :=
  request rq
    (fun e => mkResult None (Some e))
    (fun w =>
       let rows := order_desc (filter keep (workouts w)) in
       let rows := match limit with Some n => firstn n rows | None => rows end in
       (mkResult (Some (map (enrich w) rows)) None, w)).

(* Create workout *)
Definition createWorkout (workout : WorkoutInsert) : M World (Result WorkoutRow) :=
  user <- auth_getUser ;;
  match user with
  | None => ret (mkResult None (Some NotAuthenticated))
  | Some u =>
      let workoutData :=
        mkWorkoutInsert (user_id u) (ins_title workout) (ins_is_public workout) in
      request (RqInsertWorkout workoutData)
        (fun e => mkResult None (Some e))
        (fun w =>
           let r := mkWorkoutRow ("w" ++ NilZero.string_of_uint (Nat.to_uint (clock w)))%string
                                 (ins_user_id workoutData) (ins_title workoutData)
                                 (ins_is_public workoutData) (clock w) in
           (single [r], with_clock (S (clock w)) (with_workouts (workouts w ++ [r]) w)))
  end.

(* Get user's workouts *)
Definition getUserWorkouts (userId : string) : M World (Result (list Workout)) :=
  select_workouts (RqSelectUserWorkouts userId)
                  (fun r => workout_user_id r =? userId) None.

(* Get public workouts feed *)
Definition getPublicWorkouts (limit : nat) : M World (Result (list Workout)) :=
  select_workouts (RqSelectPublicWorkouts limit)
                  (fun r => is_public r) (Some limit).

Definition select_following (follower : string) : M World (Result (list string)) :=
  request (RqSelectFollowing follower)
    (fun e => mkResult None (Some e))
    (fun w => (mkResult
                 (Some (map following_id
                            (filter (fun f => follower_id f =? follower) (follows w))))
                 None, w)).

(* Get following workouts feed *)
Definition getFollowingWorkouts : M World (Result (list Workout)) :=
  user <- auth_getUser ;;
  match user with
  | None => ret (mkResult (Some []) (Some NotAuthenticated))
  | Some u =>
      (* First get the list of users being followed *)
      fr <- select_following (user_id u) ;;
      if truthy (error fr) then ret (mkResult (Some []) (error fr))
      else
        match data fr with
        | None | Some [] => ret (mkResult (Some []) None)
        | Some followingIds =>
            select_workouts (RqSelectWorkoutsIn followingIds)
              (fun r => is_public r
                        && existsb (String.eqb (workout_user_id r)) followingIds)
              None
        end
  end.

Definition select_like_single (l : Like) : M World (Result Like) :=
  request (RqSelectLikeSingle l)
    (fun e => mkResult None (Some e))
    (fun w => (single (filter (like_eqb l) (workout_likes w)), w)).

Definition delete_like (l : Like) : M World (option Err) :=
  request (RqDeleteLike l)
    (fun e => Some e)
    (fun w => (None, with_likes (filter (fun g => negb (like_eqb l g)) (workout_likes w)) w)).

(** Insert into [workout_likes]; the pair (user, workout) is unique. *)
Definition insert_like (l : Like) : M World (option Err) :=
  request (RqInsertLike l)
    (fun e => Some e)
    (fun w =>
       if existsb (like_eqb l) (workout_likes w)
       then (Some duplicate_key, w)
       else (None, with_likes (workout_likes w ++ [l]) w)).

(* Like/unlike workout *)
Definition toggleWorkoutLike (workoutId : string) : M World ToggleResult :=
  user <- auth_getUser ;;
  match user with
  | None => ret (mkToggle None (Some NotAuthenticated))
  | Some u =>
      (* Check if already liked *)
      existing <- select_like_single (mkLike (user_id u) workoutId) ;;
      match data existing with
      | Some _ =>
          (* Unlike *)
          e <- delete_like (mkLike (user_id u) workoutId) ;;
          ret (mkToggle (Some false) e)
      | None =>
          (* Like *)
          e <- insert_like (mkLike (user_id u) workoutId) ;;
          ret (mkToggle (Some true) e)
      end
  end.

End workoutService.

(* ===================================================================== *)
(** * contexts/AuthContext.tsx: the session store                          *)
(* ===================================================================== *)

Module AuthContext.

Record State : Type := mkState {
  user : option User;
  session : option Session;
  profile : option Profile;
  loading : bool
}.

(** The [useState] initial values. *)
Definition initial : State := mkState None None None true.

Definition setUser (x : option User) (s : State) : State :=
  mkState x (session s) (profile s) (loading s).
Definition setSession (x : option Session) (s : State) : State :=
  mkState (user s) x (profile s) (loading s).
Definition setProfile (x : option Profile) (s : State) : State :=
  mkState (user s) (session s) x (loading s).
Definition setLoading (x : bool) (s : State) : State :=
  mkState (user s) (session s) (profile s) x.

(* Fetch user profile *)
Definition fetchProfile (userId : string) : M (State * World) unit :=
  try_catch
    (r <- liftW (profileService.getProfile userId) ;;
     if truthy (error r) then ret tt
     else setU (setProfile (data r)))
    (ret tt).

(* Get initial session *)
Definition getInitialSession : M (State * World) unit :=
  r <- liftW authService.getCurrentSession ;;
  match data r with
  | Some s =>
      setU (setSession (Some s)) ;;;
      setU (setUser (Some (session_user s))) ;;;
      fetchProfile (user_id (session_user s))
  | None => ret tt
  end ;;;
  setU (setLoading false).

(* Listen for auth changes: the subscriber passed to onAuthStateChange *)
Definition onAuthStateChange (s : option Session) : M (State * World) unit :=
  setU (setSession s) ;;;
  setU (setUser (option_map session_user s)) ;;;
  match s with
  | Some s' => fetchProfile (user_id (session_user s'))
  | None => setU (setProfile None)
  end ;;;
  setU (setLoading false).

(* Sign in function *)
Definition signIn (email password : string) : M (State * World) (option Err) :=
  setU (setLoading true) ;;;
  r <- liftW (authService.signIn email password) ;;
  setU (setLoading false) ;;;
  ret (error r).

(* Sign up function *)
Definition signUp (email password : string) (fullName : option string)
  : M (State * World) (option Err) :=
  setU (setLoading true) ;;;
  r <- liftW (authService.signUp email password fullName) ;;
  setU (setLoading false) ;;;
  ret (error r).

(* Sign out function *)
Definition signOut : M (State * World) unit :=
  setU (setLoading true) ;;;
  _ <- liftW authService.signOut ;;
  setU (setUser None) ;;;
  setU (setSession None) ;;;
  setU (setProfile None) ;;;
  setU (setLoading false).

Definition NoUserLoggedIn : Err := Msg "No user logged in".

(* Update profile function *)
Definition updateProfile (updates : ProfileUpdates) : M (State * World) (option Err) :=
  st <- get ;;
  match user (fst st) with
  | None => ret (Some NoUserLoggedIn)
  | Some u =>
      r <- liftW (profileService.updateProfile (user_id u) updates) ;;
      (if negb (truthy (error r)) && is_some (data r)
       then setU (setProfile (data r))
       else ret tt) ;;;
      ret (error r)
  end.

(* Refresh profile function *)
Definition refreshProfile : M (State * World) unit :=
  st <- get ;;
  match user (fst st) with
  | None => ret tt
  | Some u => fetchProfile (user_id u)
  end.

(** The operations a session goes through.  [Deliver] is the client
    handing the oldest undelivered session change to the subscriber. *)
Inductive Op : Type :=
| GetInitialSession
| SignIn (email password : string)
| SignUp (email password : string) (fullName : option string)
| SignOut
| UpdateProfile (updates : ProfileUpdates)
| RefreshProfile
| Deliver.

Definition deliver : M (State * World) unit :=
  st <- get ;;
  match pending (snd st) with
  | [] => ret tt
  | ev :: rest =>
      modify (fun st => (fst st, with_pending rest (snd st))) ;;;
      onAuthStateChange ev
  end.

Definition step (op : Op) : M (State * World) unit :=
  match op with
  | GetInitialSession => getInitialSession
  | SignIn e p => _ <- signIn e p ;; ret tt
  | SignUp e p n => _ <- signUp e p n ;; ret tt
  | SignOut => signOut
  | UpdateProfile u => _ <- updateProfile u ;; ret tt
  | RefreshProfile => refreshProfile
  | Deliver => deliver
  end.

(** A rejected operation leaves the state it reached; the next one
    starts from there. *)
Definition run (ops : list Op) (s : State * World) : State * World :=
  fold_left (fun s op => snd (step op s)) ops s.

Definition signed_out (s : State) : Prop :=
  user s = None /\ session s = None /\ profile s = None.

End AuthContext.

(* ===================================================================== *)
(** * Components: local state and the alerts they raise                   *)
(* ===================================================================== *)

(** A mounted component: its [useState] cells and the [Alert.alert] calls
    it has made (title, message), oldest first. *)
Record UI (C : Type) : Type := mkUI {
  cells : C;
  alerts : list (string * string)
}.
Arguments mkUI {C} cells alerts.
Arguments cells {C} u.
Arguments alerts {C} u.

Definition setC {C W} (f : C -> C) : M (UI C * W) unit :=
  setU (fun u => mkUI (f (cells u)) (alerts u)).

Definition alert {C W} (title_ message : string) : M (UI C * W) unit :=
  setU (fun u => mkUI (cells u) (alerts u ++ [(title_, message)])).

(* ===================================================================== *)
(** * components/FollowButton.tsx                                          *)
(* ===================================================================== *)

Module FollowButton.

Record State : Type := mkState {
  isFollowing : bool;
  loading : bool;
  checkingStatus : bool
}.

Definition initial : State := mkState false false true.

Definition setIsFollowing (x : bool) (s : State) : State :=
  mkState x (loading s) (checkingStatus s).
Definition setLoading (x : bool) (s : State) : State :=
  mkState (isFollowing s) x (checkingStatus s).
Definition setCheckingStatus (x : bool) (s : State) : State :=
  mkState (isFollowing s) (loading s) x.

Section Component.

(** [P] is whatever the parent owns; the parent's callback may update
    it and may talk to the backend. *)
Context {P : Type}.

(** Props, and the [user] that [useAuth()] gave this render. *)
Variable targetUserId : string.
Variable onFollowChange : option (bool -> M (P * World) unit).
Variable user : option User.

Definition anonymous_or_self : bool :=
  match user with
  | None => true
  | Some u => user_id u =? targetUserId
  end.

Definition checkFollowStatus : M (UI State * (P * World)) unit :=
  if anonymous_or_self then setC (setCheckingStatus false)
  else
    try_finally
      (try_catch
         (r <- liftW (liftW (followService.isFollowing targetUserId)) ;;
          if truthy (isFollowing_error r) then ret tt
          else setC (setIsFollowing (isFollowing_field r)))
         (ret tt))
      (setC (setCheckingStatus false)).

Definition handleToggleFollow : M (UI State * (P * World)) unit :=
  st <- get ;;
  if negb (is_some user) || loading (cells (fst st)) then ret tt
  else
    setC (setLoading true) ;;;
    try_finally
      (try_catch
         (r <- (if isFollowing (cells (fst st))
                then liftW (liftW (followService.unfollowUser targetUserId))
                else liftW (liftW (followService.followUser targetUserId))) ;;
          if truthy (error r)
          then alert "Error" "Failed to update follow status"
          else
            let newFollowingStatus := negb (isFollowing (cells (fst st))) in
            setC (setIsFollowing newFollowingStatus) ;;;
            match onFollowChange with
            | Some cb => liftW (cb newFollowingStatus)
            | None => ret tt
            end)
         (alert "Error" "Failed to update follow status"))
      (setC (setLoading false)).

(** What the component returns to the renderer. *)
Inductive Face : Type :=
| Spinner
| Label (text : string).

Record Button : Type := mkButton {
  following_style : bool;
  disabled : bool;
  face : Face
}.

(* Don't render if checking status or if it's the user's own profile *)
Definition render (s : State) : option Button :=
  if checkingStatus s || anonymous_or_self then None
  else Some (mkButton (isFollowing s) (loading s)
                      (if loading s then Spinner
                       else Label (if isFollowing s then "Following" else "Follow"))).

(** A press reaches [handleToggleFollow] through the rendered,
    enabled touchable only. *)
Definition press : M (UI State * (P * World)) unit :=
  st <- get ;;
  match render (cells (fst st)) with
  | None => ret tt
  | Some b => if disabled b then ret tt else handleToggleFollow
  end.

End Component.

End FollowButton.

(* ===================================================================== *)
(** * screens/UserProfileScreen.tsx                                        *)
(* ===================================================================== *)

Module UserProfileScreen.

Record State : Type := mkState {
  profile : option Profile;
  workouts : list Workout;
  followersCount : Z;
  followingCount : Z;
  loading : bool
}.

Definition initial : State := mkState None [] 0%Z 0%Z true.

Definition setProfile (x : option Profile) (s : State) : State :=
  mkState x (workouts s) (followersCount s) (followingCount s) (loading s).
Definition setWorkouts (x : list Workout) (s : State) : State :=
  mkState (profile s) x (followersCount s) (followingCount s) (loading s).
Definition setFollowersCount (f : Z -> Z) (s : State) : State :=
  mkState (profile s) (workouts s) (f (followersCount s)) (followingCount s) (loading s).
Definition setFollowingCount (x : Z) (s : State) : State :=
  mkState (profile s) (workouts s) (followersCount s) x (loading s).
Definition setLoading (x : bool) (s : State) : State :=
  mkState (profile s) (workouts s) (followersCount s) (followingCount s) x.

Definition public_only (d : option (list Workout)) : list Workout :=
  match d with
  | Some ws => filter (fun w => is_public (row w)) ws
  | None => []
  end.

(* Fetch profile, follow counts, and workouts in parallel *)
Definition fetchUserData (userId : string) : M (UI State * World) unit :=
  try_finally
    (try_catch
       (setC (setLoading true) ;;;
        a <- attempt (liftW (profileService.getProfile userId)) ;;
        b <- attempt (liftW (followService.getFollowersCount userId)) ;;
        c <- attempt (liftW (followService.getFollowingCount userId)) ;;
        d <- attempt (liftW (workoutService.getUserWorkouts userId)) ;;
        profileResult <- settle a ;;
        followersResult <- settle b ;;
        followingResult <- settle c ;;
        workoutsResult <- settle d ;;
        if truthy (error profileResult)
        then alert "Error" "Failed to load user profile"
        else
          setC (setProfile (data profileResult)) ;;;
          setC (setFollowersCount (fun _ => Z.of_nat (count followersResult))) ;;;
          setC (setFollowingCount (Z.of_nat (count followingResult))) ;;;
          setC (setWorkouts (public_only (data workoutsResult))))
       (alert "Error" "Failed to load user profile"))
    (setC (setLoading false)).

(* Update followers count when follow status changes *)
Definition handleFollowChange (isFollowing : bool) : M (UI State * World) unit :=
  setC (setFollowersCount (fun prev => if isFollowing then (prev + 1)%Z else (prev - 1)%Z)).

(** The Follow Button as this screen mounts it. *)
Definition followButton_press (viewer : option User) (userId : string)
  : M (UI FollowButton.State * (UI State * World)) unit :=
  FollowButton.press userId (Some handleFollowChange) viewer.

Definition followButton_toggle (viewer : option User) (userId : string)
  : M (UI FollowButton.State * (UI State * World)) unit :=
  FollowButton.handleToggleFollow userId (Some handleFollowChange) viewer.

(** The like handler of this screen: the list is fetched again and its
    [error] is not looked at. *)
Definition handleWorkoutLike (userId workoutId : string) : M (UI State * World) unit :=
  try_catch
    (r <- liftW (workoutService.toggleWorkoutLike workoutId) ;;
     if truthy (toggle_error r)
     then alert "Error" "Failed to update like"
     else
       (* Refresh workouts to show updated like count *)
       fetched <- liftW (workoutService.getUserWorkouts userId) ;;
       setC (setWorkouts (public_only (data fetched))))
    (alert "Error" "Failed to update like").

End UserProfileScreen.

(* ===================================================================== *)
(** * screens/HomeScreen.tsx                                               *)
(* ===================================================================== *)

Module HomeScreen.

Record State : Type := mkState {
  workouts : list Workout;
  loading : bool;
  refreshing : bool
}.

Definition initial : State := mkState [] true false.

Definition setWorkouts (x : list Workout) (s : State) : State :=
  mkState x (loading s) (refreshing s).
Definition setLoading (x : bool) (s : State) : State :=
  mkState (workouts s) x (refreshing s).
Definition setRefreshing (x : bool) (s : State) : State :=
  mkState (workouts s) (loading s) x.

(** [fetchWorkouts] up to its [await]. *)
Definition fetchWorkouts_begin (isRefresh : bool) : M (UI State * World) unit :=
  if negb isRefresh then setC (setLoading true) else ret tt.

(** [fetchWorkouts] from the resolved [{ data, error }] on. *)
Definition fetchWorkouts_resume (r : Result (list Workout)) : M (UI State * World) unit :=
  if truthy (error r)
  then alert "Error" "Failed to load workouts"
  else setC (setWorkouts (match data r with Some ws => ws | None => [] end)).

Definition fetchWorkouts (isRefresh : bool) : M (UI State * World) unit :=
  try_finally
    (try_catch
       (fetchWorkouts_begin isRefresh ;;;
        r <- liftW (workoutService.getPublicWorkouts 20) ;;
        fetchWorkouts_resume r)
       (alert "Error" "Failed to load workouts"))
    (setC (setLoading false) ;;;
     if isRefresh then setC (setRefreshing false) else ret tt).

Definition onRefresh : M (UI State * World) unit :=
  setC (setRefreshing true) ;;;
  fetchWorkouts true.

(** The state a pull-to-refresh is in while its request is in flight. *)
Definition onRefresh_in_flight : M (UI State * World) unit :=
  setC (setRefreshing true) ;;;
  fetchWorkouts_begin true.

Definition handleWorkoutLike (workoutId : string) : M (UI State * World) unit :=
  try_catch
    (r <- liftW (workoutService.toggleWorkoutLike workoutId) ;;
     if truthy (toggle_error r)
     then alert "Error" "Failed to update like"
     else
       (* Refresh the list to show updated like count *)
       fetchWorkouts true)
    (alert "Error" "Failed to update like").

(* Fetch workouts when screen focuses *)
Definition onFocus : M (UI State * World) unit := fetchWorkouts false.

(** What the user and the navigator can trigger on this screen. *)
Inductive Trigger : Type :=
| Focus
| PullToRefresh
| PressLike (workoutId : string).

Definition step (t : Trigger) : M (UI State * World) unit :=
  match t with
  | Focus => onFocus
  | PullToRefresh => onRefresh
  | PressLike id => handleWorkoutLike id
  end.

Definition run (ts : list Trigger) (s : UI State * World) : UI State * World :=
  fold_left (fun s t => snd (step t s)) ts s.

End HomeScreen.

(* ===================================================================== *)
(** * screens/FollowingScreen.tsx                                          *)
(* ===================================================================== *)

Module FollowingScreen.

Record State : Type := mkState {
  workouts : list Workout;
  loading : bool;
  refreshing : bool
}.

Definition initial : State := mkState [] true false.

Definition setWorkouts (x : list Workout) (s : State) : State :=
  mkState x (loading s) (refreshing s).
Definition setLoading (x : bool) (s : State) : State :=
  mkState (workouts s) x (refreshing s).
Definition setRefreshing (x : bool) (s : State) : State :=
  mkState (workouts s) (loading s) x.

Definition fetchFollowingWorkouts (isRefresh : bool) : M (UI State * World) unit :=
  try_finally
    (try_catch
       ((if negb isRefresh then setC (setLoading true) else ret tt) ;;;
        r <- liftW workoutService.getFollowingWorkouts ;;
        if truthy (error r)
        then alert "Error" "Failed to load workouts"
        else setC (setWorkouts (match data r with Some ws => ws | None => [] end)))
       (alert "Error" "Failed to load workouts"))
    (setC (setLoading false) ;;;
     if isRefresh then setC (setRefreshing false) else ret tt).

Definition onRefresh : M (UI State * World) unit :=
  setC (setRefreshing true) ;;;
  fetchFollowingWorkouts true.

Definition handleWorkoutLike (workoutId : string) : M (UI State * World) unit :=
  try_catch
    (r <- liftW (workoutService.toggleWorkoutLike workoutId) ;;
     if truthy (toggle_error r)
     then alert "Error" "Failed to update like"
     else fetchFollowingWorkouts true)
    (alert "Error" "Failed to update like").

Definition onFocus : M (UI State * World) unit := fetchFollowingWorkouts false.

End FollowingScreen.

(* ===================================================================== *)
(** * screens/WorkoutsScreen.tsx                                           *)
(* ===================================================================== *)

Module WorkoutsScreen.

Record State : Type := mkState {
  workouts : list Workout;
  loading : bool;
  refreshing : bool
}.

Definition initial : State := mkState [] true false.

Definition setWorkouts (x : list Workout) (s : State) : State :=
  mkState x (loading s) (refreshing s).
Definition setLoading (x : bool) (s : State) : State :=
  mkState (workouts s) x (refreshing s).
Definition setRefreshing (x : bool) (s : State) : State :=
  mkState (workouts s) (loading s) x.

(** [user] is what [useAuth()] gave the render the callbacks close over. *)
Definition fetchUserWorkouts (user : option User) (isRefresh : bool)
  : M (UI State * World) unit :=
  match user with
  | None => ret tt
  | Some u =>
      try_finally
        (try_catch
           ((if negb isRefresh then setC (setLoading true) else ret tt) ;;;
            r <- liftW (workoutService.getUserWorkouts (user_id u)) ;;
            if truthy (error r)
            then alert "Error" "Failed to load workouts"
            else setC (setWorkouts (match data r with Some ws => ws | None => [] end)))
           (alert "Error" "Failed to load workouts"))
        (setC (setLoading false) ;;;
         if isRefresh then setC (setRefreshing false) else ret tt)
  end.

Definition onRefresh (user : option User) : M (UI State * World) unit :=
  setC (setRefreshing true) ;;;
  fetchUserWorkouts user true.

Definition handleWorkoutLike (user : option User) (workoutId : string)
  : M (UI State * World) unit :=
  try_catch
    (r <- liftW (workoutService.toggleWorkoutLike workoutId) ;;
     if truthy (toggle_error r)
     then alert "Error" "Failed to update like"
     else fetchUserWorkouts user true)
    (alert "Error" "Failed to update like").

Definition onFocus (user : option User) : M (UI State * World) unit :=
  fetchUserWorkouts user false.

End WorkoutsScreen.

(* ===================================================================== *)
(** * screens/ProfileScreen.tsx                                            *)
(* ===================================================================== *)

Module ProfileScreen.

Record State : Type := mkState {
  followersCount : Z;
  followingCount : Z;
  loading : bool
}.

Definition initial : State := mkState 0%Z 0%Z true.

Definition setFollowersCount (x : Z) (s : State) : State :=
  mkState x (followingCount s) (loading s).
Definition setFollowingCount (x : Z) (s : State) : State :=
  mkState (followersCount s) x (loading s).
Definition setLoading (x : bool) (s : State) : State :=
  mkState (followersCount s) (followingCount s) x.

Definition fetchFollowCounts (user : option User) : M (UI State * World) unit :=
  match user with
  | None => ret tt
  | Some u =>
      try_finally
        (try_catch
           (a <- attempt (liftW (followService.getFollowersCount (user_id u))) ;;
            b <- attempt (liftW (followService.getFollowingCount (user_id u))) ;;
            followersResult <- settle a ;;
            followingResult <- settle b ;;
            (if truthy (count_error followersResult) then ret tt
             else setC (setFollowersCount (Z.of_nat (count followersResult)))) ;;;
            (if truthy (count_error followingResult) then ret tt
             else setC (setFollowingCount (Z.of_nat (count followingResult)))))
           (ret tt))
        (setC (setLoading false))
  end.

(** The effect on [user]: the counts are fetched when there is a user. *)
Definition onUser (user : option User) : M (UI State * World) unit :=
  match user with
  | Some _ => fetchFollowCounts user
  | None => ret tt
  end.

End ProfileScreen.

(* ===================================================================== *)
(** * navigation/AppNavigator.tsx                                          *)
(* ===================================================================== *)

Module AppNavigator.

Inductive Shell : Type :=
| LoadingSpinner
| MainTabs
| AuthScreen.

(* Main app navigator *)
Definition AppNavigator (auth : AuthContext.State) : Shell :=
  if AuthContext.loading auth then LoadingSpinner
  else if is_some (AuthContext.user auth) then MainTabs else AuthScreen.

End AppNavigator.

(** [likeCount] of components/WorkoutCard.tsx:
    [workout.workout_likes?.length || 0]. *)
Definition likeCount (w : Workout) : nat := length (workout_likes_join w).

(* ===================================================================== *)
(** * components/WorkoutCard.tsx                                           *)
(* ===================================================================== *)

Module WorkoutCard.

(** [workout.workout_likes?.some(like => like.user_id === user?.id) || false] *)
Definition isLiked (user : option User) (w : Workout) : bool :=
  match user with
  | Some u => existsb (fun like_user => like_user =? user_id u) (workout_likes_join w)
  | None => false
  end.

Definition show (n : Z) : string := NilZero.string_of_int (Z.to_int n).

(** [formatDuration]; [minutes] is the integer column [duration_minutes]. *)
Definition formatDuration (minutes : option Z) : option string :=
  match minutes with
  | None => None
  | Some m =>
      if (m =? 0)%Z then None
      else if (m <? 60)%Z then Some (show m ++ "m")%string
      else
        let hours := (m / 60)%Z in
        let remainingMinutes := Z.rem m 60 in
        if (remainingMinutes =? 0)%Z then Some (show hours ++ "h")%string
        else Some (show hours ++ "h " ++ show remainingMinutes ++ "m")%string
  end.

(** The card's own cell, [isLiking]; [onLike] is the prop. *)
Definition handleLike {W} (onLike : option (M W unit)) : M (bool * W) unit :=
  st <- get (S := bool * W) ;;
  match onLike with
  | None => ret tt
  | Some like =>
      if fst st then ret tt
      else
        setU (fun _ => true) ;;;
        liftW like ;;;
        setU (fun _ => false)
  end.

End WorkoutCard.

(** Whether the like [l] is in the table. *)
Definition liked_by (l : Like) (w : World) : bool :=
  existsb (like_eqb l) (workout_likes w).

(** The like counts a list fetch shows, per workout id, when the fetch
    returns a list. *)
Definition fetched_like_counts (limit : nat) (w : World) : option (list (string * nat)) :=
  match fst (workoutService.getPublicWorkouts limit w) with
  | Ret r => option_map (map (fun x => (workout_id (row x), likeCount x))) (data r)
  | Exn => None
  end.

(** The Home screen's list request fails: it rejects, or it resolves
    with a truthy [error]. *)
Definition fetch_failed (w : World) : bool :=
  match fst (workoutService.getPublicWorkouts 20 w) with
  | Ret r => truthy (error r)
  | Exn => true
  end.

(** The Follow Button's existence check fails: it rejects, or it resolves
    with a truthy [error]. *)
Definition check_failed (target : string) (w : World) : bool :=
  match fst (followService.isFollowing target w) with
  | Ret r => truthy (isFollowing_error r)
  | Exn => true
  end.

(** A facade call reports success: it resolves, and with a falsy
    [error]. *)
Definition resolved_ok {A} (x : Res (Result A)) : bool :=
  match x with
  | Ret r => negb (truthy (error r))
  | Exn => false
  end.

(** The alert of [handleToggleFollow]. *)
Definition toggle_failed_alert : string * string :=
  ("Error", "Failed to update follow status").

(** The followers count a served [getFollowersCount] gives. *)
Definition served_followers (id : string) (w : World) : nat :=
  match fst (followService.getFollowersCount id (with_faults [] w)) with
  | Ret c => count c
  | Exn => 0
  end.


(** Rows of the workouts table, newest first. *)
Definition newest_first : WorkoutRow -> WorkoutRow -> Prop :=
  fun a b => created_at b <= created_at a.

(** The like toggle fails: it rejects, or it resolves with a truthy
    [error]. *)
Definition like_failed (workoutId : string) (w : World) : bool :=
  match fst (workoutService.toggleWorkoutLike workoutId w) with
  | Ret r => truthy (toggle_error r)
  | Exn => true
  end.

(* ===================================================================== *)
(** * Sample data                                                          *)
(* ===================================================================== *)

Definition alice : User := mkUser "1" "a@gym.app".
Definition bee : User := mkUser "2" "bee@gym.app".

Definition alice_session : Session := mkSession alice "1.0".

Definition empty_world : World :=
  mkWorld [] None [] [] [] [] [] [] 0 [] [].

(** Two accounts with their profiles, one public workout of bee, nobody
    signed in. *)
Definition gym : World :=
  mkWorld [mkAccount alice "pw-a"; mkAccount bee "pw-b"]
          None []
          [mkProfile "1" (Some "ay") None None 0; mkProfile "2" (Some "bee") None None 0]
          [] [mkWorkoutRow "w1" "2" "Leg day" true 5] [] [] 10 [] [].

(** The same with alice signed in. *)
Definition gym_alice : World := with_session (Some alice_session) gym.

(** Unfolding of the monad's plumbing in goals. *)
Ltac run_monad :=
  cbv beta iota delta [bind ret get modify try_catch try_finally liftW setU
                       setC alert fst snd] in *.

(* ===================================================================== *)
(** * General facts                                                        *)
(* ===================================================================== *)

Lemma follow_eqb_refl (f : Follow) : follow_eqb f f = true.
Proof. unfold follow_eqb. now rewrite !String.eqb_refl. Qed.

Lemma follow_eqb_eq (f g : Follow) : follow_eqb f g = true <-> f = g.
Proof.
  unfold follow_eqb. rewrite andb_true_iff, !String.eqb_eq.
  destruct f, g; simpl. split.
  - intros [-> ->]. reflexivity.
  - intros E. inversion E. auto.
Qed.

Lemma like_eqb_refl (l : Like) : like_eqb l l = true.
Proof. unfold like_eqb. now rewrite !String.eqb_refl. Qed.

Lemma like_eqb_eq (l g : Like) : like_eqb l g = true <-> l = g.
Proof.
  unfold like_eqb. rewrite andb_true_iff, !String.eqb_eq.
  destruct l, g; simpl. split.
  - intros [-> ->]. reflexivity.
  - intros E. inversion E. auto.
Qed.

(** The three answers a request can get, by the head of the script. *)
Lemma request_cases {A} (rq : Request) (failed : Err -> A)
      (serve : World -> A * World) (w : World) :
  let w1 := with_faults (tl (faults w)) (with_log (log w ++ [rq]) w) in
  (next_fault w = Serve /\
   request rq failed serve w = (Ret (fst (serve w1)), snd (serve w1)))
  \/ (exists c m, next_fault w = Fail c m /\
                  request rq failed serve w = (Ret (failed (Remote c m)), w1))
  \/ (next_fault w = Throw /\ request rq failed serve w = (Exn, w1)).
Proof.
  unfold request. simpl. destruct (next_fault w) as [|c m|].
  - left. split; [reflexivity|]. now destruct (serve _).
  - right; left. now exists c, m.
  - right; right. now split.
Qed.

(* ===================================================================== *)
(** * The session store                                                    *)
(* ===================================================================== *)

Lemma signOut_resolves (st : AuthContext.State) (w : World) :
  next_fault w <> Throw ->
  exists w', AuthContext.signOut (st, w)
             = (Ret tt, (AuthContext.mkState None None None false, w')).
Proof.
  intros H. unfold AuthContext.signOut, authService.signOut, request.
  run_monad. destruct (next_fault w) as [|c m|]; [ | | congruence];
    eexists; reflexivity.
Qed.

(** C1. After [signOut()] returns, the store's identity, credential and
    profile are absent, whether the remote sign-out was served or answered
    with an error, and whatever operations (sign-in, sign-up, sign-out,
    profile update or refresh, delivered session changes) came before. *)
Theorem signOut_clears_session_store :
  forall (ops : list AuthContext.Op) (st : AuthContext.State) (w : World),
    next_fault (snd (AuthContext.run ops (st, w))) <> Throw ->
    fst (AuthContext.signOut (AuthContext.run ops (st, w))) = Ret tt
    /\ AuthContext.signed_out
         (fst (AuthContext.run (ops ++ [AuthContext.SignOut]) (st, w)))
    /\ AuthContext.loading
         (fst (AuthContext.run (ops ++ [AuthContext.SignOut]) (st, w))) = false.
Proof.
  intros ops st w H.
  unfold AuthContext.run at 2 3. rewrite fold_left_app. simpl.
  fold (AuthContext.run ops (st, w)).
  destruct (AuthContext.run ops (st, w)) as [st1 w1]. simpl in H.
  destruct (signOut_resolves st1 w1 H) as [w' E]. rewrite E. simpl.
  unfold AuthContext.signed_out. simpl. auto.
Qed.

(** Alice signs in, the session change is delivered, the remote sign-out
    is answered with an error: the store is signed in before and cleared
    after. *)
Lemma signOut_clears_session_store_witness :
  let w := with_faults [Serve; Serve; Fail "503" "unavailable"] gym in
  let ops := [AuthContext.SignIn "a@gym.app" "pw-a"; AuthContext.Deliver] in
  AuthContext.user (fst (AuthContext.run ops (AuthContext.initial, w))) = Some alice
  /\ fst (AuthContext.signOut (AuthContext.run ops (AuthContext.initial, w))) = Ret tt
  /\ AuthContext.signed_out
       (fst (AuthContext.run (ops ++ [AuthContext.SignOut]) (AuthContext.initial, w)))
  /\ AuthContext.loading
       (fst (AuthContext.run (ops ++ [AuthContext.SignOut]) (AuthContext.initial, w))) = false.
Proof.
  split; [reflexivity|].
  apply (signOut_clears_session_store
           [AuthContext.SignIn "a@gym.app" "pw-a"; AuthContext.Deliver]
           AuthContext.initial
           (with_faults [Serve; Serve; Fail "503" "unavailable"] gym)).
  vm_compute. discriminate.
Defined.

(** C9. [updateProfile] with no identity set returns the local
    "no user" error, issues no request and leaves the store, its profile
    included, as it was. *)
Theorem updateProfile_unauthenticated :
  forall (updates : ProfileUpdates) (st : AuthContext.State) (w : World),
    AuthContext.user st = None ->
    AuthContext.updateProfile updates (st, w)
    = (Ret (Some AuthContext.NoUserLoggedIn), (st, w)).
Proof.
  intros updates st w H. unfold AuthContext.updateProfile. run_monad.
  rewrite H. reflexivity.
Qed.

Lemma updateProfile_unauthenticated_witness :
  AuthContext.updateProfile (mkUpdates (Some "zed") None None)
                            (AuthContext.initial, gym)
  = (Ret (Some (Msg "No user logged in")), (AuthContext.initial, gym)).
Proof.
  apply (updateProfile_unauthenticated (mkUpdates (Some "zed") None None)
                                       AuthContext.initial gym).
  reflexivity.
Defined.

(* ===================================================================== *)
(** * The service facade                                                   *)
(* ===================================================================== *)

Lemma filter_none {A} (p : A -> bool) (l : list A) :
  (forall x, In x l -> p x = false) -> filter p l = [].
Proof.
  induction l as [|a l IH]; simpl; intros H; [reflexivity|].
  rewrite (H a (or_introl eq_refl)). apply IH. intros x Hx. apply H. now right.
Qed.

Lemma app_two {A} (l : list A) (a b : A) : (l ++ [a]) ++ [b] = l ++ [a; b].
Proof. now rewrite <- app_assoc. Qed.

Lemma app_three {A} (l : list A) (a b c : A) :
  ((l ++ [a]) ++ [b]) ++ [c] = l ++ [a; b; c].
Proof. now rewrite <- !app_assoc. Qed.

(** C2. The identity-scoped writes take no acting identity as a
    parameter.  With no session each of them returns the
    "Not authenticated" error and the backend has seen nothing but the
    session lookup; with a session the row written (or deleted) carries
    that session's user id, whatever the parameters say. *)
Theorem identity_scoped_writes_use_session :
  forall (w : World) (target workoutId : string) (workout : WorkoutInsert),
    match auth_session w with
    | None =>
        let w' := with_log (log w ++ [RqGetUser]) w in
        followService.followUser target w
          = (Ret (mkResult None (Some NotAuthenticated)), w')
        /\ followService.unfollowUser target w
          = (Ret (mkResult None (Some NotAuthenticated)), w')
        /\ workoutService.toggleWorkoutLike workoutId w
          = (Ret (mkToggle None (Some NotAuthenticated)), w')
        /\ workoutService.createWorkout workout w
          = (Ret (mkResult None (Some NotAuthenticated)), w')
    | Some s =>
        let actor := user_id (session_user s) in
        log (snd (followService.followUser target w))
          = log w ++ [RqGetUser; RqInsertFollow (mkFollow actor target)]
        /\ log (snd (followService.unfollowUser target w))
          = log w ++ [RqGetUser; RqDeleteFollow (mkFollow actor target)]
        /\ (exists write,
               log (snd (workoutService.toggleWorkoutLike workoutId w))
                 = log w ++ RqGetUser
                     :: RqSelectLikeSingle (mkLike actor workoutId) :: write
               /\ (write = [] \/ write = [RqInsertLike (mkLike actor workoutId)]
                   \/ write = [RqDeleteLike (mkLike actor workoutId)]))
        /\ log (snd (workoutService.createWorkout workout w))
          = log w ++ [RqGetUser;
                      RqInsertWorkout (mkWorkoutInsert actor (ins_title workout)
                                                       (ins_is_public workout))]
    end.
Proof.
  intros w target workoutId workout.
  destruct (auth_session w) as [s|] eqn:Hs.
  - cbv zeta. split; [|split; [|split]].
    + unfold followService.followUser, auth_getUser, followService.insert_follow, request.
      run_monad. rewrite Hs. simpl.
      destruct (next_fault _); [destruct (existsb _ _)| |]; simpl; apply app_two.
    + unfold followService.unfollowUser, auth_getUser, followService.delete_follow, request.
      run_monad. rewrite Hs. simpl.
      destruct (next_fault _); simpl; apply app_two.
    + unfold workoutService.toggleWorkoutLike, auth_getUser,
        workoutService.select_like_single, workoutService.delete_like,
        workoutService.insert_like, request.
      run_monad. rewrite Hs. simpl.
      destruct (next_fault _) as [|c m|].
      * destruct (single _) as [[l|] e]; simpl;
          (destruct (next_fault _); [try destruct (existsb _ _)| |]); simpl;
          eexists; (split; [apply app_three|]); auto.
      * simpl. destruct (next_fault _); [destruct (existsb _ _)| |]; simpl;
          eexists; (split; [apply app_three|]); auto.
      * simpl. exists []. split; [apply app_two|]. auto.
    + unfold workoutService.createWorkout, auth_getUser, request.
      run_monad. rewrite Hs. simpl.
      destruct (next_fault _); simpl; apply app_two.
  - cbv zeta. repeat split.
    + unfold followService.followUser, auth_getUser. run_monad. now rewrite Hs.
    + unfold followService.unfollowUser, auth_getUser. run_monad. now rewrite Hs.
    + unfold workoutService.toggleWorkoutLike, auth_getUser. run_monad. now rewrite Hs.
    + unfold workoutService.createWorkout, auth_getUser. run_monad. now rewrite Hs.
Qed.

(** C3. For a signed-in viewer with no follow edge to the target, a
    served existence check makes [isFollowing] answer
    [{ isFollowing: false, error: null }]: the "no row" answer of
    [.single()] is not passed on as an error. *)
Theorem isFollowing_no_edge :
  forall (w : World) (s : Session) (target : string),
    auth_session w = Some s ->
    ~ In (mkFollow (user_id (session_user s)) target) (follows w) ->
    next_fault w = Serve ->
    followService.isFollowing target w
    = (Ret (mkIsFollowing false None),
       with_faults (tl (faults w))
         (with_log (log w ++ [RqGetUser;
                              RqSelectFollowSingle
                                (mkFollow (user_id (session_user s)) target)]) w)).
Proof.
  intros w s target Hs Hno Hf.
  unfold followService.isFollowing, auth_getUser,
    followService.select_follow_single, request.
  run_monad. rewrite Hs. simpl.
  assert (Hnf : next_fault (with_log (log w ++ [RqGetUser]) w) = Serve)
    by exact Hf.
  rewrite Hnf. simpl. rewrite filter_none.
  - simpl. rewrite app_two. reflexivity.
  - intros x Hx. destruct (follow_eqb _ x) eqn:E; [|reflexivity].
    apply follow_eqb_eq in E. subst x. contradiction.
Qed.

(** Alice, signed in, follows nobody; bee follows alice. *)
Lemma isFollowing_no_edge_witness :
  fst (followService.isFollowing
         "2" (with_follows [mkFollow "2" "1"] gym_alice))
  = Ret (mkIsFollowing false None).
Proof.
  rewrite (isFollowing_no_edge (with_follows [mkFollow "2" "1"] gym_alice)
                               alice_session "2").
  - reflexivity.
  - reflexivity.
  - simpl. intros [E|[]]. discriminate E.
  - reflexivity.
Defined.

(** The answers of [isFollowing] never carry the "no row" code. *)
Lemma isFollowing_hides_no_row (w : World) (target : string) (r : IsFollowingResult) :
  fst (followService.isFollowing target w) = Ret r ->
  err_code (isFollowing_error r) <> Some "PGRST116".
Proof.
  unfold followService.isFollowing, auth_getUser,
    followService.select_follow_single, request.
  run_monad. destruct (auth_session w) as [s|]; simpl.
  - destruct (next_fault _) as [|c m|]; simpl.
    + destruct (single _) as [d [[msg|c m]|]]; simpl; intros E; inversion E; simpl;
        try discriminate.
      destruct (c =? "PGRST116") eqn:Ec; simpl; [discriminate|].
      intros E'. inversion E'. subst. now rewrite String.eqb_refl in Ec.
    + destruct (c =? "PGRST116") eqn:Ec; simpl; intros E; inversion E; simpl;
        [discriminate|].
      intros E'. inversion E'. subst. now rewrite String.eqb_refl in Ec.
    + discriminate.
  - intros E. inversion E. simpl. discriminate.
Qed.

(** C10. For a signed-in user who follows nobody, a served follow-list
    query makes [getFollowingWorkouts] answer [{ data: [], error: null }];
    the backend has seen the session lookup and the follow-list query, and
    no workouts query. *)
Theorem getFollowingWorkouts_follows_nobody :
  forall (w : World) (s : Session),
    auth_session w = Some s ->
    (forall f, In f (follows w) -> follower_id f <> user_id (session_user s)) ->
    next_fault w = Serve ->
    workoutService.getFollowingWorkouts w
    = (Ret (mkResult (Some []) None),
       with_faults (tl (faults w))
         (with_log (log w ++ [RqGetUser;
                              RqSelectFollowing (user_id (session_user s))]) w)).
Proof.
  intros w s Hs Hno Hf.
  unfold workoutService.getFollowingWorkouts, auth_getUser,
    workoutService.select_following, request.
  run_monad. rewrite Hs. simpl.
  assert (Hnf : next_fault (with_log (log w ++ [RqGetUser]) w) = Serve)
    by exact Hf.
  rewrite Hnf. simpl. rewrite filter_none.
  - simpl. rewrite app_two. reflexivity.
  - intros f Hin. apply String.eqb_neq. now apply Hno.
Qed.

(** Alice follows nobody while bee follows alice and has a public
    workout. *)
Lemma getFollowingWorkouts_follows_nobody_witness :
  fst (workoutService.getFollowingWorkouts
         (with_follows [mkFollow "2" "1"] gym_alice))
  = Ret (mkResult (Some []) None).
Proof.
  rewrite (getFollowingWorkouts_follows_nobody
             (with_follows [mkFollow "2" "1"] gym_alice) alice_session).
  - reflexivity.
  - reflexivity.
  - simpl. intros f [<-|[]]. simpl. discriminate.
  - reflexivity.
Defined.

(* ===================================================================== *)
(** * The like toggle                                                      *)
(* ===================================================================== *)

Lemma filter_split_perm {A} (p : A -> bool) (l : list A) :
  Permutation l (filter (fun x => negb (p x)) l ++ filter p l).
Proof.
  induction l as [|a l IH]; simpl; [constructor|].
  destruct (p a); simpl.
  - now apply Permutation_cons_app.
  - now constructor.
Qed.

Lemma existsb_filter_nil {A} (p : A -> bool) (l : list A) :
  existsb p l = false -> filter p l = [].
Proof.
  intros H. apply filter_none. intros x Hx.
  destruct (p x) eqn:E; [|reflexivity].
  assert (existsb p l = true) by (apply existsb_exists; eauto). congruence.
Qed.

Lemma filter_neg_id {A} (p : A -> bool) (l : list A) :
  existsb p l = false -> filter (fun x => negb (p x)) l = l.
Proof.
  induction l as [|a l IH]; simpl; [reflexivity|].
  intros H. apply orb_false_iff in H as [Ha Hl]. rewrite Ha. simpl.
  now rewrite IH.
Qed.

Lemma filter_singleton_existsb {A} (p : A -> bool) (l : list A) (x : A) :
  filter p l = [x] -> existsb p l = true /\ p x = true.
Proof.
  intros H.
  assert (Hin : In x (filter p l)) by (rewrite H; now left).
  apply filter_In in Hin as [Hin Hp]. split; [|exact Hp].
  apply existsb_exists. eauto.
Qed.

Lemma single_data_some {A} (rows : list A) (x : A) :
  data (single rows) = Some x -> rows = [x].
Proof.
  destruct rows as [|a [|b t]]; simpl; intros E; inversion E; reflexivity.
Qed.

(** What a toggle that reports no error has done. *)
Lemma toggle_success (w : World) (workoutId : string) (r : ToggleResult) (w1 : World) :
  workoutService.toggleWorkoutLike workoutId w = (Ret r, w1) ->
  truthy (toggle_error r) = false ->
  exists s, auth_session w = Some s /\
    let l := mkLike (user_id (session_user s)) workoutId in
    auth_session w1 = Some s
    /\ workouts w1 = workouts w /\ profiles w1 = profiles w
    /\ exercises w1 = exercises w
    /\ ((filter (like_eqb l) (workout_likes w) = [l]
         /\ liked r = Some false
         /\ workout_likes w1 = filter (fun g => negb (like_eqb l g)) (workout_likes w)
         /\ log w1 = log w ++ [RqGetUser; RqSelectLikeSingle l; RqDeleteLike l])
        \/ (liked_by l w = false
            /\ liked r = Some true
            /\ workout_likes w1 = workout_likes w ++ [l]
            /\ log w1 = log w ++ [RqGetUser; RqSelectLikeSingle l; RqInsertLike l])).
Proof.
  unfold workoutService.toggleWorkoutLike, auth_getUser,
    workoutService.select_like_single, workoutService.delete_like,
    workoutService.insert_like, request, liked_by.
  run_monad. destruct (auth_session w) as [s|] eqn:Hs; simpl.
  2:{ intros E. inversion E. subst. simpl. discriminate. }
  intros E Hok. exists s. split; [reflexivity|]. cbv zeta.
  destruct (next_fault _) as [|c m|]; simpl in E.
  - destruct (single _) as [[x|] e] eqn:Hsingle; simpl in E.
    + assert (Hx : filter (like_eqb (mkLike (user_id (session_user s)) workoutId))
                          (workout_likes w) = [x])
        by (apply single_data_some; now rewrite Hsingle).
      destruct (filter_singleton_existsb _ _ _ Hx) as [_ Hpx].
      apply like_eqb_eq in Hpx. subst x.
      destruct (next_fault _) as [|c m|]; simpl in E; inversion E; subst;
        simpl in *; try discriminate.
      do 4 (split; [solve [reflexivity | exact Hs]|]).
      left. repeat split; auto using app_three.
    + destruct (next_fault _) as [|c m|]; simpl in E.
      * destruct (existsb _ _) eqn:Hex; simpl in E; inversion E; subst;
          simpl in *; try discriminate.
        do 4 (split; [solve [reflexivity | exact Hs]|]).
        right. repeat split; auto using app_three.
      * inversion E; subst; simpl in *; discriminate.
      * inversion E.
  - destruct (next_fault _) as [|c' m'|]; simpl in E.
    + destruct (existsb _ _) eqn:Hex; simpl in E; inversion E; subst;
        simpl in *; try discriminate.
      do 4 (split; [solve [reflexivity | exact Hs]|]).
      right. repeat split; auto using app_three.
    + inversion E; subst; simpl in *; discriminate.
    + inversion E.
  - inversion E.
Qed.

Lemma filter_nil_existsb {A} (p : A -> bool) (l : list A) :
  filter p l = [] -> existsb p l = false.
Proof.
  induction l as [|a l IH]; simpl; [reflexivity|].
  destruct (p a); [discriminate|]. exact IH.
Qed.

(** With a session, an exhausted script and at most one row for the
    pair, a toggle goes through: it reports the opposite of what the
    table held and no error. *)
Lemma toggle_served (w : World) (s : Session) (workoutId : string) :
  auth_session w = Some s ->
  faults w = [] ->
  length (filter (like_eqb (mkLike (user_id (session_user s)) workoutId))
                 (workout_likes w)) <= 1 ->
  fst (workoutService.toggleWorkoutLike workoutId w)
  = Ret (mkToggle
           (Some (negb (liked_by (mkLike (user_id (session_user s)) workoutId) w)))
           None).
Proof.
  intros Hs Hf Hone.
  unfold workoutService.toggleWorkoutLike, auth_getUser,
    workoutService.select_like_single, workoutService.delete_like,
    workoutService.insert_like, request, liked_by, next_fault.
  run_monad. rewrite Hs. simpl. rewrite Hf. simpl.
  destruct (filter _ (workout_likes w)) as [|x [|y t]] eqn:F; simpl in *.
  - rewrite (filter_nil_existsb _ _ F). reflexivity.
  - destruct (filter_singleton_existsb _ _ _ F) as [Hex _]. now rewrite Hex.
  - lia.
Qed.

Lemma likes_of_perm_length (id : string) (l l' : list Like) :
  Permutation l l' ->
  length (workoutService.likes_of id l) = length (workoutService.likes_of id l').
Proof.
  intros H. unfold workoutService.likes_of.
  apply Permutation_length. clear - H.
  induction H; simpl.
  - constructor.
  - destruct (like_workout_id x =? id); auto.
  - destruct (like_workout_id x =? id), (like_workout_id y =? id);
      auto using Permutation_refl, perm_swap.
  - eauto using Permutation_trans.
Qed.

(** The counts a fetch shows depend on the workouts, on how many likes
    each has, and on what the request meets. *)
Lemma fetched_like_counts_ext (limit : nat) (w w' : World) :
  workouts w = workouts w' ->
  faults w = faults w' ->
  (forall id, length (workoutService.likes_of id (workout_likes w))
              = length (workoutService.likes_of id (workout_likes w'))) ->
  fetched_like_counts limit w = fetched_like_counts limit w'.
Proof.
  intros Hw Hf Hl.
  unfold fetched_like_counts, workoutService.getPublicWorkouts,
    workoutService.select_workouts, request, next_fault.
  rewrite Hf. destruct (faults w') as [|[|c m|] fs]; simpl; try reflexivity.
  - rewrite Hw, !map_map. f_equal. apply map_ext. intros r.
    unfold likeCount. simpl. rewrite !length_map. now rewrite Hl.
  - rewrite Hw, !map_map. f_equal. apply map_ext. intros r.
    unfold likeCount. simpl. rewrite !length_map. now rewrite Hl.
Qed.

(** C4. [toggleWorkoutLike] takes the workout id only.  A toggle that
    reports no error has asked the backend for the single like row of
    (session user, workout) first, and has then deleted the like when it
    was there (reporting [liked: false]) or inserted it when it was not
    (reporting [liked: true]).  After two such toggles in a row the like
    table holds the rows it held before, and a list fetch shows the like
    counts it would have shown before. *)
Theorem toggleWorkoutLike_twice_restores :
  forall (w : World) (workoutId : string)
         (r1 : ToggleResult) (w1 : World) (r2 : ToggleResult) (w2 : World),
    workoutService.toggleWorkoutLike workoutId w = (Ret r1, w1) ->
    truthy (toggle_error r1) = false ->
    workoutService.toggleWorkoutLike workoutId w1 = (Ret r2, w2) ->
    truthy (toggle_error r2) = false ->
    exists s, auth_session w = Some s /\
      let l := mkLike (user_id (session_user s)) workoutId in
      log w1 = log w ++ [RqGetUser; RqSelectLikeSingle l;
                         if liked_by l w then RqDeleteLike l else RqInsertLike l]
      /\ liked r1 = Some (negb (liked_by l w))
      /\ liked_by l w1 = negb (liked_by l w)
      /\ liked r2 = Some (liked_by l w)
      /\ Permutation (workout_likes w2) (workout_likes w)
      /\ forall limit fs,
          fetched_like_counts limit (with_faults fs w2)
          = fetched_like_counts limit (with_faults fs w).
Proof.
  intros w workoutId r1 w1 r2 w2 E1 Ok1 E2 Ok2.
  destruct (toggle_success _ _ _ _ E1 Ok1) as (s & Hs & Hs1 & Hw1 & _ & _ & C1).
  destruct (toggle_success _ _ _ _ E2 Ok2) as (s' & Hs' & _ & Hw2 & _ & _ & C2).
  cbv zeta in *. rewrite Hs1 in Hs'. inversion Hs'. subst s'. clear Hs'.
  exists s. split; [exact Hs|]. cbv zeta.
  set (l := mkLike (user_id (session_user s)) workoutId) in *.
  assert (Main : log w1 = log w ++ [RqGetUser; RqSelectLikeSingle l;
                         if liked_by l w then RqDeleteLike l else RqInsertLike l]
      /\ liked r1 = Some (negb (liked_by l w))
      /\ liked_by l w1 = negb (liked_by l w)
      /\ liked r2 = Some (liked_by l w)
      /\ Permutation (workout_likes w2) (workout_likes w)).
  { destruct C1 as [(F1 & L1 & T1 & G1) | (F1 & L1 & T1 & G1)].
    - (* the like was there: deleted, then inserted again *)
      destruct (filter_singleton_existsb _ _ _ F1) as [Hex _].
      assert (Hgone : liked_by l w1 = false).
      { unfold liked_by. rewrite T1.
        destruct (existsb (like_eqb l) (filter _ _)) eqn:E; [|reflexivity].
        apply existsb_exists in E as (x & Hin & Hx).
        apply filter_In in Hin as [_ Hn]. rewrite Hx in Hn. discriminate. }
      unfold liked_by in *. rewrite Hex.
      destruct C2 as [(F2 & _) | (_ & L2 & T2 & _)].
      + destruct (filter_singleton_existsb _ _ _ F2) as [Hex2 _]. congruence.
      + repeat split; auto.
        rewrite T2, T1. symmetry.
        rewrite <- F1. apply filter_split_perm.
    - (* the like was not there: inserted, then deleted again *)
      assert (Hthere : liked_by l w1 = true).
      { unfold liked_by. rewrite T1, existsb_app. simpl.
        rewrite like_eqb_refl. now rewrite orb_true_r. }
      unfold liked_by in *. rewrite F1.
      destruct C2 as [(_ & L2 & T2 & _) | (F2 & _)]; [|congruence].
      repeat split; auto.
      rewrite T2, T1, filter_app. simpl. rewrite like_eqb_refl. simpl.
      rewrite app_nil_r, filter_neg_id by exact F1. apply Permutation_refl. }
  destruct Main as (M1 & M2 & M3 & M4 & M5).
  repeat (split; [assumption|]).
  intros limit fs. apply fetched_like_counts_ext.
  - simpl. congruence.
  - reflexivity.
  - intros id. simpl. now apply likes_of_perm_length.
Qed.

(** Alice likes bee's workout and takes the like back. *)
Lemma toggleWorkoutLike_twice_restores_witness :
  let w1 := snd (workoutService.toggleWorkoutLike "w1" gym_alice) in
  let w2 := snd (workoutService.toggleWorkoutLike "w1" w1) in
  fetched_like_counts 20 w1 = Some [("w1", 1)]
  /\ Permutation (workout_likes w2) (workout_likes gym_alice)
  /\ fetched_like_counts 20 (with_faults [] w2) = Some [("w1", 0)].
Proof.
  cbv zeta. split; [vm_compute; reflexivity|].
  assert (E1 : workoutService.toggleWorkoutLike "w1" gym_alice
               = (Ret (mkToggle (Some true) None),
                  snd (workoutService.toggleWorkoutLike "w1" gym_alice)))
    by (vm_compute; reflexivity).
  assert (E2 : workoutService.toggleWorkoutLike
                 "w1" (snd (workoutService.toggleWorkoutLike "w1" gym_alice))
               = (Ret (mkToggle (Some false) None),
                  snd (workoutService.toggleWorkoutLike
                         "w1" (snd (workoutService.toggleWorkoutLike "w1" gym_alice)))))
    by (vm_compute; reflexivity).
  destruct (toggleWorkoutLike_twice_restores _ _ _ _ _ _ E1 eq_refl E2 eq_refl)
    as (s & _ & _ & _ & _ & _ & HP & HC).
  split; [exact HP|]. rewrite HC. vm_compute. reflexivity.
Defined.

(* ===================================================================== *)
(** * The Home screen                                                      *)
(* ===================================================================== *)

(** One run of [fetchWorkouts], whatever the request meets. *)
Lemma fetchWorkouts_spec (isRefresh : bool) (u : UI HomeScreen.State) (w : World) :
  let out := HomeScreen.fetchWorkouts isRefresh (u, w) in
  fst out = Ret tt
  /\ HomeScreen.loading (cells (fst (snd out))) = false
  /\ HomeScreen.refreshing (cells (fst (snd out)))
     = (if isRefresh then false else HomeScreen.refreshing (cells u))
  /\ (fetch_failed w = true ->
      HomeScreen.workouts (cells (fst (snd out))) = HomeScreen.workouts (cells u)
      /\ alerts (fst (snd out)) = alerts u ++ [("Error", "Failed to load workouts")]).
Proof.
  unfold fetch_failed, HomeScreen.fetchWorkouts, HomeScreen.fetchWorkouts_begin,
    HomeScreen.fetchWorkouts_resume, workoutService.getPublicWorkouts,
    workoutService.select_workouts, request.
  destruct u as [[ws ld rf] al].
  destruct isRefresh; run_monad; simpl;
    destruct (next_fault w) as [|c m|]; simpl;
    repeat split; try reflexivity; try discriminate.
Qed.

Lemma step_keeps_refreshing_clear (t : HomeScreen.Trigger)
      (u : UI HomeScreen.State) (w : World) :
  HomeScreen.refreshing (cells u) = false ->
  HomeScreen.refreshing (cells (fst (snd (HomeScreen.step t (u, w))))) = false.
Proof.
  intros H. destruct t as [| |id]; simpl.
  - unfold HomeScreen.onFocus.
    destruct (fetchWorkouts_spec false u w) as (_ & _ & R & _). now rewrite R.
  - unfold HomeScreen.onRefresh. run_monad.
    match goal with
    | |- context [HomeScreen.fetchWorkouts true (?u', w)] =>
        destruct (fetchWorkouts_spec true u' w) as (E & _ & R & _);
        destruct (HomeScreen.fetchWorkouts true (u', w)) as [[[]|] s']
    end; simpl in *; assumption.
  - unfold HomeScreen.handleWorkoutLike. run_monad.
    destruct (workoutService.toggleWorkoutLike id w) as [[r|] w'].
    + destruct (truthy (toggle_error r)).
      * simpl. exact H.
      * destruct (fetchWorkouts_spec true u w') as (E & _ & R & _).
        destruct (HomeScreen.fetchWorkouts true (u, w')) as [[[]|] s'];
          simpl in *; [assumption | discriminate].
    + simpl. exact H.
Qed.

Lemma run_keeps_refreshing_clear (ts : list HomeScreen.Trigger) (w : World) :
  HomeScreen.refreshing
    (cells (fst (HomeScreen.run ts (mkUI HomeScreen.initial [], w)))) = false.
Proof.
  induction ts as [|t ts IH] using rev_ind; [reflexivity|].
  unfold HomeScreen.run in *. rewrite fold_left_app. simpl.
  destruct (fold_left _ ts _) as [u' w'].
  now apply step_keeps_refreshing_clear.
Qed.

(** C5. On the Home screen, after any history of focus, pull-to-refresh
    and like presses, a focus fetch or a pull-to-refresh ends with
    [loading] and [refreshing] both false whether the request succeeds,
    resolves with an error or rejects; when it fails the list shown is the
    list shown before; and while a pull-to-refresh is in flight the list
    and [loading] are as they were. *)
Theorem HomeScreen_failed_fetch_keeps_items :
  forall (ts : list HomeScreen.Trigger) (w0 : World) (pull : bool),
    let s := HomeScreen.run ts (mkUI HomeScreen.initial [], w0) in
    let out := HomeScreen.step (if pull then HomeScreen.PullToRefresh
                                else HomeScreen.Focus) s in
    let flying := snd (HomeScreen.onRefresh_in_flight s) in
    fst out = Ret tt
    /\ HomeScreen.loading (cells (fst (snd out))) = false
    /\ HomeScreen.refreshing (cells (fst (snd out))) = false
    /\ (fetch_failed (snd s) = true ->
        HomeScreen.workouts (cells (fst (snd out)))
        = HomeScreen.workouts (cells (fst s)))
    /\ HomeScreen.workouts (cells (fst flying)) = HomeScreen.workouts (cells (fst s))
    /\ HomeScreen.loading (cells (fst flying)) = HomeScreen.loading (cells (fst s))
    /\ HomeScreen.refreshing (cells (fst flying)) = true.
Proof.
  intros ts w0 pull. cbv zeta.
  pose proof (run_keeps_refreshing_clear ts w0) as Hr.
  destruct (HomeScreen.run ts _) as [u w]. simpl in Hr. simpl fst. simpl snd.
  destruct pull; simpl HomeScreen.step.
  - unfold HomeScreen.onRefresh, HomeScreen.onRefresh_in_flight,
      HomeScreen.fetchWorkouts_begin.
    run_monad. simpl negb. cbv iota.
    match goal with
    | |- context [HomeScreen.fetchWorkouts true (?u', w)] =>
        destruct (fetchWorkouts_spec true u' w) as (E & L & R & F);
        destruct (HomeScreen.fetchWorkouts true (u', w)) as [res [u2 w2]]
    end.
    simpl in *. repeat split; auto.
    intros Hfail. destruct (F Hfail) as [Fw _]. exact Fw.
  - unfold HomeScreen.onFocus, HomeScreen.onRefresh_in_flight,
      HomeScreen.fetchWorkouts_begin.
    run_monad. simpl negb. cbv iota.
    destruct (fetchWorkouts_spec false u w) as (E & L & R & F).
    destruct (HomeScreen.fetchWorkouts false (u, w)) as [res [u2 w2]].
    simpl in *. repeat split; auto; try congruence;
      try (intros Hfail; now destruct (F Hfail)).
Qed.

(** Bee's workout is on screen; the refresh that follows is answered with
    an error, and the workout stays. *)
Lemma HomeScreen_failed_fetch_keeps_items_witness :
  let w := with_faults [Serve; Fail "503" "unavailable"] gym in
  let s := HomeScreen.run [HomeScreen.Focus] (mkUI HomeScreen.initial [], w) in
  map (fun x => workout_id (row x)) (HomeScreen.workouts (cells (fst s))) = ["w1"]
  /\ fetch_failed (snd s) = true
  /\ HomeScreen.workouts (cells (fst (snd (HomeScreen.onRefresh s))))
     = HomeScreen.workouts (cells (fst s)).
Proof.
  cbv zeta. split; [vm_compute; reflexivity|].
  split; [vm_compute; reflexivity|].
  destruct (HomeScreen_failed_fetch_keeps_items
              [HomeScreen.Focus]
              (with_faults [Serve; Fail "503" "unavailable"] gym) true)
    as (_ & _ & _ & F & _).
  apply F. vm_compute. reflexivity.
Defined.

(* ===================================================================== *)
(** * The Follow Button                                                    *)
(* ===================================================================== *)

(** C6. On a profile screen, a press on the button shown as "Follow"
    issues [followUser(target)] and nothing else.  When that call reports
    success the button shows "Following", the screen's callback has run
    with [true], and the followers count is one more than before, with no
    request beyond the follow itself; when the call resolves with an error
    or rejects, the button still shows "Follow", the screen is as it was,
    and one alert has been raised. *)
Theorem follow_press_flips_only_on_success :
  forall (viewer : User) (target : string)
         (b : UI FollowButton.State) (p : UI UserProfileScreen.State) (w : World),
    user_id viewer <> target ->
    cells b = FollowButton.mkState false false false ->
    let call := followService.followUser target w in
    let out := UserProfileScreen.followButton_press (Some viewer) target (b, (p, w)) in
    let b' := fst (snd out) in
    let p' := fst (snd (snd out)) in
    FollowButton.render target (Some viewer) (cells b)
      = Some (FollowButton.mkButton false false (FollowButton.Label "Follow"))
    /\ fst out = Ret tt
    /\ snd (snd (snd out)) = snd call
    /\ FollowButton.loading (cells b') = false
    /\ (if resolved_ok (fst call)
        then FollowButton.render target (Some viewer) (cells b')
               = Some (FollowButton.mkButton true false (FollowButton.Label "Following"))
             /\ alerts b' = alerts b
             /\ UserProfileScreen.handleFollowChange true (p, snd call)
                = (Ret tt, (p', snd call))
             /\ UserProfileScreen.followersCount (cells p')
                = (UserProfileScreen.followersCount (cells p) + 1)%Z
        else FollowButton.render target (Some viewer) (cells b')
               = Some (FollowButton.mkButton false false (FollowButton.Label "Follow"))
             /\ alerts b' = alerts b ++ [toggle_failed_alert]
             /\ p' = p).
Proof.
  intros viewer target [cb al] [pc pal] w Hne Hb. simpl in Hb. subst cb.
  cbv zeta.
  assert (Hself : (user_id viewer =? target) = false) by now apply String.eqb_neq.
  unfold UserProfileScreen.followButton_press, FollowButton.press,
    FollowButton.render, FollowButton.anonymous_or_self,
    FollowButton.handleToggleFollow, UserProfileScreen.handleFollowChange,
    resolved_ok, toggle_failed_alert.
  run_monad. simpl. rewrite ?Hself. simpl.
  destruct (followService.followUser target w) as [[r|] w']; simpl.
  - destruct (truthy (error r)); simpl; rewrite ?Hself; simpl; repeat split.
  - rewrite ?Hself. simpl. repeat split.
Qed.

(** The scenario of viewer 1 on the profile of 2 ("bee"), whom 1 does not
    follow, with 7 followers shown. *)
Lemma follow_press_flips_only_on_success_witness :
  let b := mkUI (FollowButton.mkState false false false) [] in
  let p := mkUI (UserProfileScreen.mkState None [] 7%Z 0%Z false) [] in
  let out := UserProfileScreen.followButton_press (Some alice) "2" (b, (p, gym_alice)) in
  follows (snd (snd (snd out))) = [mkFollow "1" "2"]
  /\ log (snd (snd (snd out))) = [RqGetUser; RqInsertFollow (mkFollow "1" "2")]
  /\ FollowButton.isFollowing (cells (fst (snd out))) = true
  /\ UserProfileScreen.followersCount (cells (fst (snd (snd out)))) = 8%Z.
Proof.
  cbv zeta.
  destruct (follow_press_flips_only_on_success
              alice "2"
              (mkUI (FollowButton.mkState false false false) [])
              (mkUI (UserProfileScreen.mkState None [] 7%Z 0%Z false) [])
              gym_alice)
    as (_ & _ & W & _ & S).
  - simpl. discriminate.
  - reflexivity.
  - cbv zeta in W. rewrite W.
    split; [vm_compute; reflexivity|]. split; [vm_compute; reflexivity|].
    split; [vm_compute; reflexivity|].
    replace (resolved_ok (fst (followService.followUser "2" gym_alice)))
      with true in S by (vm_compute; reflexivity).
    destruct S as (_ & _ & _ & C). cbv zeta in C. rewrite C. reflexivity.
Defined.

(** C7, as the code has it.  When the existence check fails (it resolves
    with an error or rejects), [checkFollowStatus] keeps the displayed
    state it had (not-following after mount) and clears [checkingStatus]:
    for a signed-in viewer looking at someone else the button is rendered
    with that state. *)
Theorem failed_check_keeps_prior_state :
  forall (P : Type) (viewer : User) (target : string)
         (b : UI FollowButton.State) (p : P) (w : World),
    user_id viewer <> target ->
    check_failed target w = true ->
    let out := FollowButton.checkFollowStatus target (Some viewer) (b, (p, w)) in
    let b' := fst (snd out) in
    fst out = Ret tt
    /\ cells b' = FollowButton.setCheckingStatus false (cells b)
    /\ alerts b' = alerts b
    /\ snd (snd out) = (p, snd (followService.isFollowing target w))
    /\ FollowButton.render target (Some viewer) (cells b')
       = Some (FollowButton.mkButton
                 (FollowButton.isFollowing (cells b))
                 (FollowButton.loading (cells b))
                 (if FollowButton.loading (cells b) then FollowButton.Spinner
                  else FollowButton.Label
                         (if FollowButton.isFollowing (cells b)
                          then "Following" else "Follow"))).
Proof.
  intros P viewer target [[f l c] al] p w Hne Hfail. cbv zeta.
  assert (Hself : (user_id viewer =? target) = false) by now apply String.eqb_neq.
  unfold check_failed in Hfail.
  unfold FollowButton.checkFollowStatus, FollowButton.render,
    FollowButton.anonymous_or_self.
  run_monad. rewrite Hself. simpl.
  destruct (followService.isFollowing target w) as [[r|] w']; simpl in *.
  - rewrite Hfail. simpl. rewrite ?Hself. repeat split.
  - rewrite ?Hself. repeat split.
Qed.

(** Alice follows bee, the check is answered with an error, and the
    button comes up as "Follow". *)
Lemma failed_check_keeps_prior_state_witness :
  let w := with_faults [Fail "503" "unavailable"]
                       (with_follows [mkFollow "1" "2"] gym_alice) in
  FollowButton.render
    "2" (Some alice)
    (cells (fst (snd (FollowButton.checkFollowStatus
                        "2" (Some alice)
                        (mkUI FollowButton.initial [], (tt, w))))))
  = Some (FollowButton.mkButton false false (FollowButton.Label "Follow")).
Proof.
  cbv zeta.
  destruct (failed_check_keeps_prior_state
              unit alice "2" (mkUI FollowButton.initial []) tt
              (with_faults [Fail "503" "unavailable"]
                           (with_follows [mkFollow "1" "2"] gym_alice)))
    as (_ & _ & _ & _ & R).
  - simpl. discriminate.
  - vm_compute. reflexivity.
  - cbv zeta in R. rewrite R. reflexivity.
Defined.

(** C7, counterexample to "a failed check leaves the component hidden":
    after a failed check on mount the component renders an enabled
    "Follow" button, here for a viewer who does follow the target. *)
Lemma failed_check_is_not_hidden :
  let w := with_faults [Fail "503" "unavailable"]
                       (with_follows [mkFollow "1" "2"] gym_alice) in
  let mounted := snd (FollowButton.checkFollowStatus
                        "2" (Some alice) (mkUI FollowButton.initial [], (tt, w))) in
  check_failed "2" w = true
  /\ In (mkFollow "1" "2") (follows w)
  /\ FollowButton.render "2" (Some alice) (cells (fst mounted)) <> None
  /\ FollowButton.render "2" (Some alice) (cells (fst mounted))
     = Some (FollowButton.mkButton false false (FollowButton.Label "Follow")).
Proof.
  cbv zeta. split; [vm_compute; reflexivity|].
  split; [simpl; auto|].
  assert (E : FollowButton.render
                "2" (Some alice)
                (cells (fst (snd (FollowButton.checkFollowStatus
                        "2" (Some alice)
                        (mkUI FollowButton.initial [],
                         (tt, with_faults [Fail "503" "unavailable"]
                                (with_follows [mkFollow "1" "2"] gym_alice)))))))
              = Some (FollowButton.mkButton false false (FollowButton.Label "Follow")))
    by (vm_compute; reflexivity).
  split; [rewrite E; discriminate | exact E].
Qed.

(** C8. A press on the Follow Button while a toggle is in flight
    ([loading]) or while the status check has not finished
    ([checkingStatus]) is ignored: no request is issued and nothing
    changes.  While busy, [handleToggleFollow] itself returns at once (and
    the touchable is disabled); while checking, the component renders
    nothing, so there is no touchable for the press to land on. *)
Theorem toggle_ignored_while_busy_or_checking :
  forall (P : Type) (target : string) (cb : option (bool -> M (P * World) unit))
         (viewer : option User) (b : UI FollowButton.State) (pw : P * World),
    FollowButton.loading (cells b) = true
    \/ FollowButton.checkingStatus (cells b) = true ->
    FollowButton.press target cb viewer (b, pw) = (Ret tt, (b, pw))
    /\ (FollowButton.loading (cells b) = true ->
        FollowButton.handleToggleFollow target cb viewer (b, pw) = (Ret tt, (b, pw)))
    /\ (FollowButton.checkingStatus (cells b) = true ->
        FollowButton.render target viewer (cells b) = None).
Proof.
  intros P target cb viewer [[f l c] al] pw H. simpl in H.
  unfold FollowButton.press, FollowButton.handleToggleFollow, FollowButton.render.
  run_monad. simpl.
  split; [|split].
  - destruct c; simpl; [reflexivity|].
    destruct H as [H|H]; [|discriminate]. subst l.
    destruct (FollowButton.anonymous_or_self target viewer); reflexivity.
  - intros ->. now rewrite orb_true_r.
  - intros ->. reflexivity.
Qed.

(** A press right after mount, while the check is still running, and a
    press while a toggle is in flight. *)
Lemma toggle_ignored_while_busy_or_checking_witness :
  let checking := mkUI FollowButton.initial [] in
  let busy := mkUI (FollowButton.mkState false true false) [] in
  let rest := (mkUI UserProfileScreen.initial [], gym_alice) in
  UserProfileScreen.followButton_press (Some alice) "2" (checking, rest)
  = (Ret tt, (checking, rest))
  /\ UserProfileScreen.followButton_toggle (Some alice) "2" (busy, rest)
     = (Ret tt, (busy, rest)).
Proof.
  cbv zeta. split.
  - exact (proj1 (toggle_ignored_while_busy_or_checking
                    (UI UserProfileScreen.State) "2"
                    (Some UserProfileScreen.handleFollowChange) (Some alice)
                    (mkUI FollowButton.initial [])
                    (mkUI UserProfileScreen.initial [], gym_alice)
                    (or_intror eq_refl))).
  - exact (proj1 (proj2 (toggle_ignored_while_busy_or_checking
                    (UI UserProfileScreen.State) "2"
                    (Some UserProfileScreen.handleFollowChange) (Some alice)
                    (mkUI (FollowButton.mkState false true false) [])
                    (mkUI UserProfileScreen.initial [], gym_alice)
                    (or_introl eq_refl))) eq_refl).
Defined.

(** The guard of [handleToggleFollow] is [!user || loading]: were the
    handler reached while [checkingStatus] is set and no toggle is in
    flight, it would issue the follow.  The render guard is what keeps
    presses away in that state. *)
Remark handler_guard_does_not_test_checking :
  let checking := mkUI FollowButton.initial [] in
  let rest := (mkUI UserProfileScreen.initial [], gym_alice) in
  let out := UserProfileScreen.followButton_toggle (Some alice) "2" (checking, rest) in
  FollowButton.render "2" (Some alice) (cells checking) = None
  /\ log (snd (snd (snd out))) = [RqGetUser; RqInsertFollow (mkFollow "1" "2")].
Proof.
  cbv zeta. split; [reflexivity|]. vm_compute. reflexivity.
Qed.


(* ===================================================================== *)
(** * Follow edges: what the facade's writes and reads do together        *)
(* ===================================================================== *)

(** What a [followUser] that reports no error has done. *)
Lemma followUser_success (w : World) (target : string) (r : Result unit) (w1 : World) :
  followService.followUser target w = (Ret r, w1) ->
  truthy (error r) = false ->
  exists s, auth_session w = Some s
    /\ auth_session w1 = Some s
    /\ existsb (follow_eqb (mkFollow (user_id (session_user s)) target)) (follows w) = false
    /\ follows w1 = follows w ++ [mkFollow (user_id (session_user s)) target]
    /\ log w1 = log w ++ [RqGetUser;
                          RqInsertFollow (mkFollow (user_id (session_user s)) target)].
Proof.
  unfold followService.followUser, auth_getUser, followService.insert_follow, request.
  run_monad. destruct (auth_session w) as [s|] eqn:Hs; simpl.
  2:{ intros E. inversion E. subst. simpl. discriminate. }
  intros E Hok. exists s. split; [reflexivity|].
  destruct (next_fault _) as [|c m|]; simpl in E.
  - destruct (existsb _ _) eqn:Hex; simpl in E; inversion E; subst;
      simpl in *; try discriminate.
    repeat split; auto using app_two.
  - inversion E; subst; simpl in *; discriminate.
  - inversion E.
Qed.

(** What an [unfollowUser] that reports no error has done. *)
Lemma unfollowUser_success (w : World) (target : string) (r : Result unit) (w1 : World) :
  followService.unfollowUser target w = (Ret r, w1) ->
  truthy (error r) = false ->
  exists s, auth_session w = Some s
    /\ auth_session w1 = Some s
    /\ follows w1
       = filter (fun g => negb (follow_eqb (mkFollow (user_id (session_user s)) target) g))
                (follows w)
    /\ log w1 = log w ++ [RqGetUser;
                          RqDeleteFollow (mkFollow (user_id (session_user s)) target)].
Proof.
  unfold followService.unfollowUser, auth_getUser, followService.delete_follow, request.
  run_monad. destruct (auth_session w) as [s|] eqn:Hs; simpl.
  2:{ intros E. inversion E. subst. simpl. discriminate. }
  intros E Hok. exists s. split; [reflexivity|].
  destruct (next_fault _) as [|c m|]; simpl in E.
  - inversion E; subst; simpl in *. repeat split; auto using app_two.
  - inversion E; subst; simpl in *; discriminate.
  - inversion E.
Qed.

Lemma served_followers_eq (id : string) (w : World) :
  served_followers id w
  = length (filter (fun f => following_id f =? id) (follows w)).
Proof. reflexivity. Qed.

Lemma follow_unfollow_back (w : World) (target : string)
      (r1 : Result unit) (w1 : World) (r2 : Result unit) (w2 : World) :
  followService.followUser target w = (Ret r1, w1) ->
  truthy (error r1) = false ->
  followService.unfollowUser target w1 = (Ret r2, w2) ->
  truthy (error r2) = false ->
  follows w2 = follows w.
Proof.
  intros E1 Ok1 E2 Ok2.
  destruct (followUser_success _ _ _ _ E1 Ok1) as (s & Hs & Hs1 & Hab & F1 & _).
  destruct (unfollowUser_success _ _ _ _ E2 Ok2) as (s' & Hs' & _ & F2 & _).
  rewrite Hs1 in Hs'. inversion Hs'. subst s'. clear Hs'.
  rewrite F2, F1, filter_app. simpl. rewrite follow_eqb_refl. simpl.
  rewrite app_nil_r. now apply filter_neg_id.
Qed.

(** A served existence check with a session, by the rows it finds. *)
Lemma isFollowing_served_rows (w : World) (s : Session) (target : string) :
  auth_session w = Some s ->
  next_fault w = Serve ->
  fst (followService.isFollowing target w)
  = Ret (mkIsFollowing
           (Nat.eqb (length (filter (follow_eqb (mkFollow (user_id (session_user s)) target))
                                    (follows w))) 1)
           None).
Proof.
  intros Hs Hf.
  unfold followService.isFollowing, auth_getUser,
    followService.select_follow_single, request.
  run_monad. rewrite Hs. simpl.
  assert (Hnf : next_fault (with_log (log w ++ [RqGetUser]) w) = Serve) by exact Hf.
  rewrite Hnf. simpl.
  destruct (filter _ (follows w)) as [|x [|y t]]; reflexivity.
Qed.

(** X1. A [followUser] and then an [unfollowUser] of the same target,
    both reporting no error, leave the follow table exactly as it was; in
    between, the target has one follower more and nobody else's followers
    count has moved. *)
Theorem follow_then_unfollow_restores_edges :
  forall (w : World) (target : string)
         (r1 : Result unit) (w1 : World) (r2 : Result unit) (w2 : World),
    followService.followUser target w = (Ret r1, w1) ->
    truthy (error r1) = false ->
    followService.unfollowUser target w1 = (Ret r2, w2) ->
    truthy (error r2) = false ->
    follows w2 = follows w
    /\ served_followers target w1 = S (served_followers target w)
    /\ (forall other, other <> target ->
                      served_followers other w1 = served_followers other w)
    /\ (forall id, served_followers id w2 = served_followers id w).
Proof.
  intros w target r1 w1 r2 w2 E1 Ok1 E2 Ok2.
  pose proof (follow_unfollow_back _ _ _ _ _ _ E1 Ok1 E2 Ok2) as Hback.
  destruct (followUser_success _ _ _ _ E1 Ok1) as (s & Hs & Hs1 & Hab & F1 & _).
  split; [exact Hback|]. rewrite !served_followers_eq.
  split; [|split].
  - rewrite F1, filter_app, length_app. simpl. rewrite String.eqb_refl. simpl. lia.
  - intros other Hne. rewrite served_followers_eq, F1, filter_app, length_app. simpl.
    destruct (target =? other) eqn:E; [|simpl; rewrite served_followers_eq; lia].
    apply String.eqb_eq in E. congruence.
  - intros id. rewrite !served_followers_eq. now rewrite Hback.
Qed.

Lemma follow_then_unfollow_restores_edges_witness :
  let w := with_follows [mkFollow "2" "1"] gym_alice in
  let w1 := snd (followService.followUser "2" w) in
  let w2 := snd (followService.unfollowUser "2" w1) in
  follows w1 = [mkFollow "2" "1"; mkFollow "1" "2"]
  /\ follows w2 = follows w.
Proof.
  cbv zeta. split; [vm_compute; reflexivity|].
  assert (E1 : followService.followUser "2" (with_follows [mkFollow "2" "1"] gym_alice)
               = (Ret (mkResult None None),
                  snd (followService.followUser
                         "2" (with_follows [mkFollow "2" "1"] gym_alice))))
    by (vm_compute; reflexivity).
  assert (E2 : followService.unfollowUser
                 "2" (snd (followService.followUser
                             "2" (with_follows [mkFollow "2" "1"] gym_alice)))
               = (Ret (mkResult None None),
                  snd (followService.unfollowUser
                         "2" (snd (followService.followUser
                                     "2" (with_follows [mkFollow "2" "1"] gym_alice))))))
    by (vm_compute; reflexivity).
  exact (proj1 (follow_then_unfollow_restores_edges _ _ _ _ _ _ E1 eq_refl E2 eq_refl)).
Defined.

(** X2. With a session and a served existence check, [isFollowing]
    reports no error and answers true exactly when the table holds one row
    for (session user, target); with no row, and also with several, it
    answers false. *)
Theorem isFollowing_served :
  forall (w : World) (s : Session) (target : string),
    auth_session w = Some s ->
    next_fault w = Serve ->
    fst (followService.isFollowing target w)
    = Ret (mkIsFollowing
             (Nat.eqb (length (filter (follow_eqb (mkFollow (user_id (session_user s)) target))
                                      (follows w))) 1)
             None).
Proof.
  intros w s target Hs Hf. now apply isFollowing_served_rows.
Qed.

Lemma isFollowing_served_witness :
  fst (followService.isFollowing "2" (with_follows [mkFollow "1" "2"] gym_alice))
  = Ret (mkIsFollowing true None)
  /\ fst (followService.isFollowing
            "2" (with_follows [mkFollow "1" "2"; mkFollow "1" "2"] gym_alice))
     = Ret (mkIsFollowing false None).
Proof.
  split.
  - rewrite (isFollowing_served (with_follows [mkFollow "1" "2"] gym_alice)
                                alice_session "2" eq_refl eq_refl).
    reflexivity.
  - rewrite (isFollowing_served
               (with_follows [mkFollow "1" "2"; mkFollow "1" "2"] gym_alice)
               alice_session "2" eq_refl eq_refl).
    reflexivity.
Defined.

(** X3. After a [followUser] that reported no error, a served
    [isFollowing] for the same target answers true; after the
    [unfollowUser] that follows it, false. *)
Theorem isFollowing_tracks_follow_and_unfollow :
  forall (w : World) (target : string)
         (r1 : Result unit) (w1 : World) (r2 : Result unit) (w2 : World),
    followService.followUser target w = (Ret r1, w1) ->
    truthy (error r1) = false ->
    followService.unfollowUser target w1 = (Ret r2, w2) ->
    truthy (error r2) = false ->
    fst (followService.isFollowing target (with_faults [] w1))
      = Ret (mkIsFollowing true None)
    /\ fst (followService.isFollowing target (with_faults [] w2))
      = Ret (mkIsFollowing false None).
Proof.
  intros w target r1 w1 r2 w2 E1 Ok1 E2 Ok2.
  pose proof (follow_unfollow_back _ _ _ _ _ _ E1 Ok1 E2 Ok2) as Hback.
  destruct (followUser_success _ _ _ _ E1 Ok1) as (s & Hs & Hs1 & Hab & F1 & _).
  destruct (unfollowUser_success _ _ _ _ E2 Ok2) as (s' & Hs' & Hs2 & _).
  rewrite Hs1 in Hs'. inversion Hs'. subst s'. clear Hs'.
  split.
  - rewrite (isFollowing_served_rows (with_faults [] w1) s target Hs1 eq_refl).
    simpl. rewrite F1, filter_app. simpl. rewrite follow_eqb_refl.
    rewrite (existsb_filter_nil _ _ Hab). reflexivity.
  - rewrite (isFollowing_served_rows (with_faults [] w2) s target Hs2 eq_refl).
    simpl. rewrite Hback, (existsb_filter_nil _ _ Hab). reflexivity.
Qed.

Lemma isFollowing_tracks_follow_and_unfollow_witness :
  let w1 := snd (followService.followUser "2" gym_alice) in
  fst (followService.isFollowing "2" (with_faults [] w1))
  = Ret (mkIsFollowing true None).
Proof.
  cbv zeta.
  assert (E1 : followService.followUser "2" gym_alice
               = (Ret (mkResult None None), snd (followService.followUser "2" gym_alice)))
    by (vm_compute; reflexivity).
  assert (E2 : followService.unfollowUser "2" (snd (followService.followUser "2" gym_alice))
               = (Ret (mkResult None None),
                  snd (followService.unfollowUser
                         "2" (snd (followService.followUser "2" gym_alice)))))
    by (vm_compute; reflexivity).
  exact (proj1 (isFollowing_tracks_follow_and_unfollow _ _ _ _ _ _
                  E1 eq_refl E2 eq_refl)).
Defined.

(* ===================================================================== *)
(** * The list queries                                                     *)
(* ===================================================================== *)

Lemma in_insert_desc (x r : WorkoutRow) (l : list WorkoutRow) :
  In x (workoutService.insert_desc r l) <-> x = r \/ In x l.
Proof.
  induction l as [|a l IH]; simpl.
  - intuition congruence.
  - destruct (Nat.ltb (created_at a) (created_at r)); simpl.
    + intuition congruence.
    + rewrite IH. intuition congruence.
Qed.

Lemma in_order_desc (x : WorkoutRow) (l : list WorkoutRow) :
  In x (workoutService.order_desc l) <-> In x l.
Proof.
  unfold workoutService.order_desc.
  induction l as [|a l IH]; simpl; [reflexivity|].
  rewrite in_insert_desc, IH. intuition congruence.
Qed.

Lemma insert_desc_sorted (r : WorkoutRow) (l : list WorkoutRow) :
  StronglySorted newest_first l ->
  StronglySorted newest_first (workoutService.insert_desc r l).
Proof.
  induction 1 as [|a l Hs IH Hall]; simpl.
  - repeat constructor.
  - destruct (Nat.ltb (created_at a) (created_at r)) eqn:E.
    + apply Nat.ltb_lt in E. constructor; [now constructor|].
      constructor; [unfold newest_first; lia|].
      eapply Forall_impl; [|exact Hall]. unfold newest_first. intros b Hb. lia.
    + apply Nat.ltb_ge in E. constructor; [exact IH|].
      apply Forall_forall. intros b Hb. apply in_insert_desc in Hb as [->|Hb].
      * exact E.
      * rewrite Forall_forall in Hall. now apply Hall.
Qed.

Lemma order_desc_sorted (l : list WorkoutRow) :
  StronglySorted newest_first (workoutService.order_desc l).
Proof.
  unfold workoutService.order_desc.
  induction l as [|a l IH]; simpl; [constructor|]. now apply insert_desc_sorted.
Qed.

Lemma in_firstn {A} (n : nat) (l : list A) (x : A) :
  In x (firstn n l) -> In x l.
Proof.
  revert l. induction n as [|n IH]; intros [|a l]; simpl; try tauto.
  intros [->|H]; auto.
Qed.

Lemma firstn_sorted {A} (R : A -> A -> Prop) (n : nat) (l : list A) :
  StronglySorted R l -> StronglySorted R (firstn n l).
Proof.
  intros H. revert n. induction H as [|a l Hs IH Hall]; intros [|n]; simpl;
    try constructor.
  - apply IH.
  - apply Forall_forall. intros b Hb. rewrite Forall_forall in Hall.
    apply Hall. eapply in_firstn; eauto.
Qed.

(** What a served list query over the workouts gives. *)
Lemma select_workouts_served (rq : Request) (keep : WorkoutRow -> bool)
      (limit : option nat) (w : World) :
  next_fault w = Serve ->
  exists ws,
    workoutService.select_workouts rq keep limit w
    = (Ret (mkResult (Some ws) None),
       with_faults (tl (faults w)) (with_log (log w ++ [rq]) w))
    /\ StronglySorted newest_first (map row ws)
    /\ (forall x, In x ws ->
                  In (row x) (workouts w) /\ keep (row x) = true
                  /\ x = workoutService.enrich w (row x))
    /\ (limit = None ->
        forall r, In r (workouts w) -> keep r = true ->
                  In (workoutService.enrich w r) ws)
    /\ (forall n, limit = Some n -> length ws <= n).
Proof.
  intros Hf. unfold workoutService.select_workouts, request. rewrite Hf.
  eexists. split; [reflexivity|]. simpl.
  set (rows := match limit with
               | Some n => firstn n (workoutService.order_desc (filter keep (workouts w)))
               | None => workoutService.order_desc (filter keep (workouts w))
               end).
  assert (Hsub : forall r, In r rows -> In r (workouts w) /\ keep r = true).
  { intros r Hr. apply filter_In. apply in_order_desc.
    unfold rows in Hr. destruct limit; [eapply in_firstn; eauto | exact Hr]. }
  split; [|split; [|split]].
  - rewrite map_map. simpl. rewrite map_id. unfold rows.
    destruct limit; [apply firstn_sorted|]; apply order_desc_sorted.
  - intros x Hx. apply in_map_iff in Hx as (r & <- & Hr). simpl.
    destruct (Hsub r Hr). auto.
  - intros -> r Hr Hk. apply in_map. unfold rows.
    apply in_order_desc, filter_In. auto.
  - intros n ->. rewrite length_map. unfold rows. apply firstn_le_length.
Qed.

(** X4. A served [getPublicWorkouts(limit)] returns no error and a list
    of at most [limit] workouts, each a public row of the table with its
    joins, newest first. *)
Theorem getPublicWorkouts_served :
  forall (limit : nat) (w : World),
    next_fault w = Serve ->
    exists ws,
      fst (workoutService.getPublicWorkouts limit w) = Ret (mkResult (Some ws) None)
      /\ length ws <= limit
      /\ StronglySorted newest_first (map row ws)
      /\ (forall x, In x ws ->
                    In (row x) (workouts w) /\ is_public (row x) = true
                    /\ likeCount x
                       = length (workoutService.likes_of (workout_id (row x))
                                                         (workout_likes w))).
Proof.
  intros limit w Hf. unfold workoutService.getPublicWorkouts.
  destruct (select_workouts_served (RqSelectPublicWorkouts limit)
              (fun r => is_public r) (Some limit) w Hf)
    as (ws & E & Hs & Hin & _ & Hlen).
  exists ws. rewrite E. repeat split; auto.
  - now apply (proj1 (Hin x H)).
  - now apply (proj2 (Hin x H)).
  - destruct (Hin x H) as (_ & _ & Hx). rewrite Hx at 1.
    unfold likeCount. simpl. now rewrite length_map.
Qed.

Lemma getPublicWorkouts_served_witness :
  exists ws,
    fst (workoutService.getPublicWorkouts 20 gym) = Ret (mkResult (Some ws) None)
    /\ length ws <= 20.
Proof.
  destruct (getPublicWorkouts_served 20 gym eq_refl) as (ws & E & L & _).
  exists ws. split; assumption.
Defined.

(** X5. Whatever the requests meet, a [getFollowingWorkouts] that
    resolves with a list returns only public workouts whose owner the
    session user follows. *)
Theorem getFollowingWorkouts_only_followed_public :
  forall (w : World) (r : Result (list Workout)) (w' : World) (ws : list Workout)
         (x : Workout),
    workoutService.getFollowingWorkouts w = (Ret r, w') ->
    data r = Some ws ->
    In x ws ->
    is_public (row x) = true
    /\ In (row x) (workouts w)
    /\ exists s, auth_session w = Some s
                 /\ In (mkFollow (user_id (session_user s)) (workout_user_id (row x)))
                       (follows w).
Proof.
  intros w r w' ws x E Hd Hx.
  unfold workoutService.getFollowingWorkouts, auth_getUser,
    workoutService.select_following, request in E.
  run_monad. destruct (auth_session w) as [s|] eqn:Hs; simpl in E.
  2:{ inversion E; subst. simpl in Hd. inversion Hd; subst. destruct Hx. }
  destruct (next_fault _) as [|c m|]; simpl in E.
  - destruct (map following_id _) as [|i ids] eqn:Hids.
    + inversion E; subst. simpl in Hd. inversion Hd; subst. destruct Hx.
    + unfold workoutService.select_workouts, request in E.
      destruct (next_fault _) as [|c m|]; simpl in E; inversion E; subst;
        simpl in Hd; try discriminate.
      inversion Hd; subst. clear Hd E.
      apply in_map_iff in Hx as (rw & <- & Hrw). simpl.
      apply in_order_desc, filter_In in Hrw as [Hin Hk].
      apply andb_true_iff in Hk as [Hpub Hown].
      split; [exact Hpub|]. split; [exact Hin|].
      exists s. split; [reflexivity|].
      change (existsb (String.eqb (workout_user_id rw)) (i :: ids) = true) in Hown.
      apply existsb_exists in Hown as (owner & Hin_ids & Heq).
      apply String.eqb_eq in Heq. subst owner.
      rewrite <- Hids in Hin_ids.
      apply in_map_iff in Hin_ids as (f & Hfid & Hf_in).
      apply filter_In in Hf_in as [Hf_in Hfol]. apply String.eqb_eq in Hfol.
      destruct f as [a b]. simpl in *. subst. exact Hf_in.
  - inversion E; subst. simpl in Hd. inversion Hd; subst. destruct Hx.
  - inversion E.
Qed.

(** Alice follows bee; bee's public workout comes back. *)
Lemma getFollowingWorkouts_only_followed_public_witness :
  let w := with_follows [mkFollow "1" "2"] gym_alice in
  let x := workoutService.enrich w (mkWorkoutRow "w1" "2" "Leg day" true 5) in
  fst (workoutService.getFollowingWorkouts w) = Ret (mkResult (Some [x]) None)
  /\ is_public (row x) = true
  /\ In (mkFollow "1" "2") (follows w).
Proof.
  cbv zeta.
  assert (E : workoutService.getFollowingWorkouts (with_follows [mkFollow "1" "2"] gym_alice)
              = (Ret (mkResult
                        (Some [workoutService.enrich
                                 (with_follows [mkFollow "1" "2"] gym_alice)
                                 (mkWorkoutRow "w1" "2" "Leg day" true 5)]) None),
                 snd (workoutService.getFollowingWorkouts
                        (with_follows [mkFollow "1" "2"] gym_alice))))
    by (vm_compute; reflexivity).
  split; [rewrite E; reflexivity|].
  destruct (getFollowingWorkouts_only_followed_public
              _ _ _ _ _ E eq_refl (or_introl eq_refl))
    as (Hp & _ & s & Hs & Hin).
  split; [exact Hp|].
  simpl in Hs. inversion Hs; subst. exact Hin.
Defined.

(** A list query that resolves with a list holds rows of the table that
    pass its filter. *)
Lemma select_workouts_sound (rq : Request) (keep : WorkoutRow -> bool)
      (limit : option nat) (w : World) (r : Result (list Workout)) (w' : World)
      (ws : list Workout) (x : Workout) :
  workoutService.select_workouts rq keep limit w = (Ret r, w') ->
  data r = Some ws ->
  In x ws ->
  In (row x) (workouts w) /\ keep (row x) = true.
Proof.
  unfold workoutService.select_workouts, request.
  destruct (next_fault w) as [|c m|]; simpl; intros E Hd Hx; inversion E; subst;
    simpl in Hd; try discriminate.
  inversion Hd; subst. apply in_map_iff in Hx as (rw & <- & Hrw). simpl.
  apply filter_In, in_order_desc.
  destruct limit; [eapply in_firstn; eauto | exact Hrw].
Qed.

(** X6. With a session and a served insert, [createWorkout] returns the
    new row, owned by the session user whatever [user_id] the argument
    carried, and a served [getUserWorkouts] for that user then lists it. *)
Theorem createWorkout_then_listed :
  forall (w : World) (s : Session) (workout : WorkoutInsert),
    auth_session w = Some s ->
    next_fault w = Serve ->
    exists rw w1,
      workoutService.createWorkout workout w = (Ret (mkResult (Some rw) None), w1)
      /\ workout_user_id rw = user_id (session_user s)
      /\ title rw = ins_title workout
      /\ is_public rw = ins_is_public workout
      /\ workouts w1 = workouts w ++ [rw]
      /\ exists ws,
          fst (workoutService.getUserWorkouts (user_id (session_user s))
                                              (with_faults [] w1))
          = Ret (mkResult (Some ws) None)
          /\ exists x, In x ws /\ row x = rw.
Proof.
  intros w s workout Hs Hf.
  unfold workoutService.createWorkout, auth_getUser, request.
  run_monad. rewrite Hs. simpl.
  assert (Hnf : next_fault (with_log (log w ++ [RqGetUser]) w) = Serve) by exact Hf.
  rewrite Hnf. simpl.
  eexists. eexists. split; [reflexivity|]. simpl.
  repeat (split; [reflexivity|]).
  eexists. split; [reflexivity|].
  eexists. split.
  - apply in_map, in_order_desc, filter_In. split.
    + apply in_or_app. right. left. reflexivity.
    + simpl. apply String.eqb_refl.
  - reflexivity.
Qed.

Lemma createWorkout_then_listed_witness :
  exists rw,
    fst (workoutService.createWorkout (mkWorkoutInsert "2" "Push day" false) gym_alice)
    = Ret (mkResult (Some rw) None)
    /\ workout_user_id rw = "1".
Proof.
  destruct (createWorkout_then_listed
              gym_alice alice_session (mkWorkoutInsert "2" "Push day" false)
              eq_refl eq_refl)
    as (rw & w1 & E & Hu & _).
  exists rw. rewrite E. split; [reflexivity | exact Hu].
Defined.

(* ===================================================================== *)
(** * The user profile screen                                              *)
(* ===================================================================== *)

Lemma getProfile_world (userId : string) (w : World) :
  snd (profileService.getProfile userId w)
  = with_faults (tl (faults w)) (with_log (log w ++ [RqSelectProfile userId]) w).
Proof.
  unfold profileService.getProfile, request. now destruct (next_fault w).
Qed.

Lemma getFollowersCount_world (userId : string) (w : World) :
  snd (followService.getFollowersCount userId w)
  = with_faults (tl (faults w)) (with_log (log w ++ [RqCountFollowers userId]) w).
Proof.
  unfold followService.getFollowersCount, request. now destruct (next_fault w).
Qed.

Lemma getFollowingCount_world (userId : string) (w : World) :
  snd (followService.getFollowingCount userId w)
  = with_faults (tl (faults w)) (with_log (log w ++ [RqCountFollowing userId]) w).
Proof.
  unfold followService.getFollowingCount, request. now destruct (next_fault w).
Qed.

Lemma select_workouts_world (rq : Request) (keep : WorkoutRow -> bool)
      (limit : option nat) (w : World) :
  snd (workoutService.select_workouts rq keep limit w)
  = with_faults (tl (faults w)) (with_log (log w ++ [rq]) w).
Proof.
  unfold workoutService.select_workouts, request. now destruct (next_fault w).
Qed.

Lemma app_four {A} (l : list A) (a b c d : A) :
  (((l ++ [a]) ++ [b]) ++ [c]) ++ [d] = l ++ [a; b; c; d].
Proof. now rewrite <- !app_assoc. Qed.

(** The four reads of [fetchUserData] are all issued, whatever each of
    them meets. *)
Lemma fetchUserData_log (userId : string) (u : UI UserProfileScreen.State) (w : World) :
  log (snd (snd (UserProfileScreen.fetchUserData userId (u, w))))
  = log w ++ [RqSelectProfile userId; RqCountFollowers userId;
              RqCountFollowing userId; RqSelectUserWorkouts userId].
Proof.
  unfold UserProfileScreen.fetchUserData, attempt, settle,
    workoutService.getUserWorkouts.
  run_monad. simpl.
  pose proof (getProfile_world userId w) as W1.
  destruct (profileService.getProfile userId w) as [r1 w1]. simpl in W1. subst w1.
  match goal with
  | |- context [followService.getFollowersCount userId ?w1] =>
      pose proof (getFollowersCount_world userId w1) as W2;
      destruct (followService.getFollowersCount userId w1) as [r2 w2]
  end. simpl in W2. subst w2.
  match goal with
  | |- context [followService.getFollowingCount userId ?w2] =>
      pose proof (getFollowingCount_world userId w2) as W3;
      destruct (followService.getFollowingCount userId w2) as [r3 w3]
  end. simpl in W3. subst w3.
  match goal with
  | |- context [workoutService.select_workouts ?rq ?k ?l ?w3] =>
      pose proof (select_workouts_world rq k l w3) as W4;
      destruct (workoutService.select_workouts rq k l w3) as [r4 w4]
  end. simpl in W4. subst w4.
  destruct r1 as [r1|], r2 as [r2|], r3 as [r3|], r4 as [r4|]; simpl;
    try destruct (truthy (error r1)); simpl; apply app_four.
Qed.

(** X7. When the profile request of [fetchUserData] fails (it rejects or
    resolves with an error), nothing fetched is applied: the screen keeps
    its profile, counts and workouts, [loading] ends false and one alert
    is raised, although all four requests were issued. *)
Theorem fetchUserData_profile_failure_applies_nothing :
  forall (userId : string) (u : UI UserProfileScreen.State) (w : World),
    resolved_ok (fst (profileService.getProfile userId w)) = false ->
    let out := UserProfileScreen.fetchUserData userId (u, w) in
    fst out = Ret tt
    /\ cells (fst (snd out)) = UserProfileScreen.setLoading false (cells u)
    /\ alerts (fst (snd out)) = alerts u ++ [("Error", "Failed to load user profile")]
    /\ log (snd (snd out))
       = log w ++ [RqSelectProfile userId; RqCountFollowers userId;
                   RqCountFollowing userId; RqSelectUserWorkouts userId].
Proof.
  intros userId u w Hfail. cbv zeta.
  split; [|split; [|split; [|apply fetchUserData_log]]];
    unfold UserProfileScreen.fetchUserData, attempt, settle; run_monad; simpl;
    destruct u as [[pr wk fc gc ld] al];
    destruct (profileService.getProfile userId w) as [r1 w1];
    destruct (followService.getFollowersCount userId w1) as [r2 w2];
    destruct (followService.getFollowingCount userId w2) as [r3 w3];
    destruct (workoutService.getUserWorkouts userId w3) as [r4 w4];
    destruct r1 as [r1|]; simpl in *;
    try (apply negb_false_iff in Hfail; rewrite Hfail); simpl; try reflexivity;
    destruct r2, r3, r4; reflexivity.
Qed.

Lemma fetchUserData_profile_failure_applies_nothing_witness :
  let u := mkUI (UserProfileScreen.mkState None [] 7%Z 3%Z false) [] in
  let w := with_faults [Fail "503" "unavailable"] gym in
  UserProfileScreen.followersCount
    (cells (fst (snd (UserProfileScreen.fetchUserData "2" (u, w))))) = 7%Z.
Proof.
  cbv zeta.
  destruct (fetchUserData_profile_failure_applies_nothing
              "2" (mkUI (UserProfileScreen.mkState None [] 7%Z 3%Z false) [])
              (with_faults [Fail "503" "unavailable"] gym))
    as (_ & C & _).
  - vm_compute. reflexivity.
  - cbv zeta in C. rewrite C. reflexivity.
Defined.

Lemma public_only_sound (userId : string) (w : World)
      (r : Result (list Workout)) (w' : World) (x : Workout) :
  workoutService.getUserWorkouts userId w = (Ret r, w') ->
  In x (UserProfileScreen.public_only (data r)) ->
  is_public (row x) = true /\ workout_user_id (row x) = userId.
Proof.
  intros E Hx. unfold UserProfileScreen.public_only in Hx.
  destruct (data r) as [ws|] eqn:Hd; [|destruct Hx].
  apply filter_In in Hx as [Hin Hpub]. split; [exact Hpub|].
  unfold workoutService.getUserWorkouts in E.
  destruct (select_workouts_sound _ _ _ _ _ _ _ _ E Hd Hin) as [_ Hk].
  now apply String.eqb_eq in Hk.
Qed.

(** X8. Whatever the requests meet, every workout on the user profile
    screen after [fetchUserData] or after its [handleWorkoutLike] was
    either there before or is a public workout of the viewed user:
    [getUserWorkouts] returns private ones too, and the screen drops
    them. *)
Theorem UserProfileScreen_shows_public_only :
  forall (userId workoutId : string) (u : UI UserProfileScreen.State) (w : World)
         (x : Workout),
    (In x (UserProfileScreen.workouts
             (cells (fst (snd (UserProfileScreen.fetchUserData userId (u, w))))))
     \/ In x (UserProfileScreen.workouts
                (cells (fst (snd (UserProfileScreen.handleWorkoutLike
                                    userId workoutId (u, w))))))) ->
    In x (UserProfileScreen.workouts (cells u))
    \/ (is_public (row x) = true /\ workout_user_id (row x) = userId).
Proof.
  intros userId workoutId [[pr wk fc gc ld] al] w x [H|H].
  - unfold UserProfileScreen.fetchUserData, attempt, settle in H.
    run_monad. simpl in H.
    destruct (profileService.getProfile userId w) as [r1 w1].
    destruct (followService.getFollowersCount userId w1) as [r2 w2].
    destruct (followService.getFollowingCount userId w2) as [r3 w3].
    destruct (workoutService.getUserWorkouts userId w3) as [r4 w4] eqn:E4.
    destruct r1 as [r1|], r2 as [r2|], r3 as [r3|], r4 as [r4|]; simpl in H;
      try (left; exact H);
      destruct (truthy (error r1)); simpl in H; try (left; exact H).
    right. eapply public_only_sound; eauto.
  - unfold UserProfileScreen.handleWorkoutLike in H. run_monad. simpl in H.
    destruct (workoutService.toggleWorkoutLike workoutId w) as [[r|] w1];
      simpl in H; try (left; exact H).
    destruct (truthy (toggle_error r)); simpl in H; try (left; exact H).
    destruct (workoutService.getUserWorkouts userId w1) as [[r4|] w4] eqn:E4;
      simpl in H; try (left; exact H).
    right. eapply public_only_sound; eauto.
Qed.

(** Bee has a private workout next to the public one; only the public
    one reaches the screen. *)
Lemma UserProfileScreen_shows_public_only_witness :
  let w := with_workouts [mkWorkoutRow "w1" "2" "Leg day" true 5;
                          mkWorkoutRow "w2" "2" "Secret" false 6] gym in
  let shown := UserProfileScreen.workouts
                 (cells (fst (snd (UserProfileScreen.fetchUserData
                                     "2" (mkUI UserProfileScreen.initial [], w))))) in
  map (fun x => workout_id (row x)) shown = ["w1"]
  /\ forall x, In x shown -> is_public (row x) = true.
Proof.
  cbv zeta. split; [vm_compute; reflexivity|].
  intros x Hx.
  destruct (UserProfileScreen_shows_public_only
              "2" "w1" (mkUI UserProfileScreen.initial [])
              (with_workouts [mkWorkoutRow "w1" "2" "Leg day" true 5;
                              mkWorkoutRow "w2" "2" "Secret" false 6] gym)
              x (or_introl Hx)) as [[]|[Hp _]].
  exact Hp.
Defined.

(** X9. In [fetchUserData] the [error] of the two count requests is not
    looked at: when the profile arrives and the followers count request
    is answered with an error, the screen shows 0 followers, next to the
    profile and the true following count, and raises no alert. *)
Theorem fetchUserData_failed_count_shows_zero :
  forall (userId : string) (u : UI UserProfileScreen.State) (w : World)
         (p : Profile) (c m : string),
    faults w = [Serve; Fail c m] ->
    filter (fun q => profile_id q =? userId) (profiles w) = [p] ->
    let out := UserProfileScreen.fetchUserData userId (u, w) in
    UserProfileScreen.profile (cells (fst (snd out))) = Some p
    /\ UserProfileScreen.followersCount (cells (fst (snd out))) = 0%Z
    /\ UserProfileScreen.followingCount (cells (fst (snd out)))
       = Z.of_nat (length (filter (fun f => follower_id f =? userId) (follows w)))
    /\ UserProfileScreen.loading (cells (fst (snd out))) = false
    /\ alerts (fst (snd out)) = alerts u.
Proof.
  intros userId [[pr wk fc gc ld] al] w p c m Hf Hp. cbv zeta.
  unfold UserProfileScreen.fetchUserData, attempt, settle,
    profileService.getProfile, followService.getFollowersCount,
    followService.getFollowingCount, workoutService.getUserWorkouts,
    workoutService.select_workouts, request, next_fault.
  run_monad. simpl. rewrite Hf. simpl. rewrite Hp. simpl.
  repeat split.
Qed.

Lemma fetchUserData_failed_count_shows_zero_witness :
  let w := with_faults [Serve; Fail "503" "unavailable"]
                       (with_follows [mkFollow "1" "2"] gym) in
  let out := UserProfileScreen.fetchUserData "2" (mkUI UserProfileScreen.initial [], w) in
  served_followers "2" w = 1
  /\ UserProfileScreen.followersCount (cells (fst (snd out))) = 0%Z.
Proof.
  cbv zeta. split; [reflexivity|].
  destruct (fetchUserData_failed_count_shows_zero
              "2" (mkUI UserProfileScreen.initial [])
              (with_faults [Serve; Fail "503" "unavailable"]
                           (with_follows [mkFollow "1" "2"] gym))
              (mkProfile "2" (Some "bee") None None 0) "503" "unavailable"
              eq_refl eq_refl) as (_ & Z0 & _).
  exact Z0.
Defined.

(** X10. On the user profile screen a like that went through is followed
    by a re-fetch whose [error] is not looked at: when the re-fetch is
    answered with an error the list on screen becomes empty and no alert
    is raised, and when it rejects the list stays and the "like" alert is
    raised although the like was written. *)
Theorem UserProfileScreen_like_refetch_failure :
  forall (userId workoutId : string) (u : UI UserProfileScreen.State) (w : World)
         (r : ToggleResult) (w1 : World),
    workoutService.toggleWorkoutLike workoutId w = (Ret r, w1) ->
    truthy (toggle_error r) = false ->
    let out := UserProfileScreen.handleWorkoutLike userId workoutId (u, w) in
    fst out = Ret tt
    /\ match next_fault w1 with
       | Serve => alerts (fst (snd out)) = alerts u
       | Fail _ _ =>
           UserProfileScreen.workouts (cells (fst (snd out))) = []
           /\ alerts (fst (snd out)) = alerts u
       | Throw =>
           UserProfileScreen.workouts (cells (fst (snd out)))
           = UserProfileScreen.workouts (cells u)
           /\ alerts (fst (snd out)) = alerts u ++ [("Error", "Failed to update like")]
       end.
Proof.
  intros userId workoutId [[pr wk fc gc ld] al] w r w1 E Hok. cbv zeta.
  unfold UserProfileScreen.handleWorkoutLike. run_monad. rewrite E. simpl.
  rewrite Hok.
  unfold workoutService.getUserWorkouts, workoutService.select_workouts, request.
  destruct (next_fault w1) as [|c m|]; simpl; repeat split.
Qed.

Lemma UserProfileScreen_like_refetch_failure_witness :
  let w := with_faults [Serve; Serve; Fail "503" "unavailable"] gym_alice in
  let u := mkUI (UserProfileScreen.mkState
                   None [workoutService.enrich gym (mkWorkoutRow "w1" "2" "Leg day" true 5)]
                   0%Z 0%Z false) [] in
  UserProfileScreen.workouts
    (cells (fst (snd (UserProfileScreen.handleWorkoutLike "2" "w1" (u, w))))) = [].
Proof.
  cbv zeta.
  assert (E : workoutService.toggleWorkoutLike
                "w1" (with_faults [Serve; Serve; Fail "503" "unavailable"] gym_alice)
              = (Ret (mkToggle (Some true) None),
                 snd (workoutService.toggleWorkoutLike
                        "w1" (with_faults [Serve; Serve; Fail "503" "unavailable"]
                                          gym_alice))))
    by (vm_compute; reflexivity).
  destruct (UserProfileScreen_like_refetch_failure
              "2" "w1"
              (mkUI (UserProfileScreen.mkState
                       None [workoutService.enrich gym (mkWorkoutRow "w1" "2" "Leg day" true 5)]
                       0%Z 0%Z false) [])
              _ _ _ E eq_refl) as (_ & C).
  exact (proj1 C).
Defined.

(* ===================================================================== *)
(** * The session store, further                                           *)
(* ===================================================================== *)

(** [fetchProfile] never rejects and touches the profile only. *)
Lemma fetchProfile_frame (userId : string) (st : AuthContext.State) (w : World) :
  fst (AuthContext.fetchProfile userId (st, w)) = Ret tt
  /\ AuthContext.user (fst (snd (AuthContext.fetchProfile userId (st, w))))
     = AuthContext.user st
  /\ AuthContext.session (fst (snd (AuthContext.fetchProfile userId (st, w))))
     = AuthContext.session st
  /\ AuthContext.loading (fst (snd (AuthContext.fetchProfile userId (st, w))))
     = AuthContext.loading st.
Proof.
  unfold AuthContext.fetchProfile. run_monad.
  destruct (profileService.getProfile userId w) as [[r|] w1]; simpl.
  - destruct (truthy (error r)); simpl; auto.
  - auto.
Qed.






(** X13. A session change that carries a session replaces [user] and
    [session] at once; when the profile fetch that follows fails, the
    profile held before stays in the store, also when it was fetched for
    another user. *)
Theorem session_change_keeps_profile_on_failed_fetch :
  forall (st : AuthContext.State) (w : World) (s : Session),
    resolved_ok (fst (profileService.getProfile (user_id (session_user s)) w)) = false ->
    let out := AuthContext.onAuthStateChange (Some s) (st, w) in
    fst out = Ret tt
    /\ fst (snd out)
       = AuthContext.mkState (Some (session_user s)) (Some s) (AuthContext.profile st) false.
Proof.
  intros [u0 s0 p0 l0] w s Hfail. cbv zeta.
  unfold AuthContext.onAuthStateChange, AuthContext.fetchProfile. run_monad. simpl.
  destruct (profileService.getProfile (user_id (session_user s)) w) as [[r|] w1];
    simpl in *.
  - apply negb_false_iff in Hfail. rewrite Hfail. simpl. split; reflexivity.
  - split; reflexivity.
Qed.

(** Alice's profile is in the store when bee's session arrives and the
    fetch of bee's profile is answered with an error. *)
Lemma session_change_keeps_profile_on_failed_fetch_witness :
  let st := AuthContext.mkState (Some alice) (Some alice_session)
                                (Some (mkProfile "1" (Some "ay") None None 0)) false in
  let out := AuthContext.onAuthStateChange
               (Some (mkSession bee "2.0"))
               (st, with_faults [Fail "503" "unavailable"] gym) in
  AuthContext.user (fst (snd out)) = Some bee
  /\ option_map profile_id (AuthContext.profile (fst (snd out))) = Some "1".
Proof.
  cbv zeta.
  destruct (session_change_keeps_profile_on_failed_fetch
              (AuthContext.mkState (Some alice) (Some alice_session)
                                   (Some (mkProfile "1" (Some "ay") None None 0)) false)
              (with_faults [Fail "503" "unavailable"] gym)
              (mkSession bee "2.0")) as (_ & E).
  - vm_compute. reflexivity.
  - cbv zeta in E. rewrite E. split; reflexivity.
Defined.

(** X14. With a user in the store, a served update and one profile row
    for that user, [updateProfile] returns no error and stores the row
    the backend now holds (the given fields applied, [updated_at] set by
    the backend): a served [getProfile] for the user returns the stored
    profile. *)
Theorem updateProfile_stores_server_row :
  forall (updates : ProfileUpdates) (st : AuthContext.State) (w : World)
         (u : User) (p : Profile),
    AuthContext.user st = Some u ->
    next_fault w = Serve ->
    filter (fun q => profile_id q =? user_id u) (profiles w) = [p] ->
    let out := AuthContext.updateProfile updates (st, w) in
    fst out = Ret None
    /\ AuthContext.profile (fst (snd out))
       = Some (profileService.apply_updates (clock w) updates p)
    /\ fst (profileService.getProfile (user_id u) (with_faults [] (snd (snd out))))
       = Ret (mkResult (AuthContext.profile (fst (snd out))) None).
Proof.
  intros updates [u0 s0 p0 l0] w u p Hu Hf Hp. simpl in Hu. subst u0. cbv zeta.
  assert (Hrows : filter (fun q => profile_id q =? user_id u)
                    (map (fun q => if profile_id q =? user_id u
                                   then profileService.apply_updates (clock w) updates q
                                   else q) (profiles w))
                  = [profileService.apply_updates (clock w) updates p]).
  { revert Hp. generalize (profiles w). intros l. revert p.
    induction l as [|q l IH]; intros p Hp; simpl in *; [discriminate|].
    destruct (profile_id q =? user_id u) eqn:E; simpl.
    - rewrite E. inversion Hp; subst.
      f_equal. clear IH Hp. induction l as [|q' l IH]; simpl in *; [reflexivity|].
      destruct (profile_id q' =? user_id u) eqn:E'; [discriminate|].
      rewrite E'. now apply IH.
    - rewrite E. now apply IH. }
  unfold AuthContext.updateProfile, profileService.updateProfile,
    profileService.getProfile, request.
  run_monad. simpl. rewrite Hf. simpl. rewrite Hrows. simpl.
  split; [reflexivity|]. split; [reflexivity|].
  now rewrite Hrows.
Qed.

Lemma updateProfile_stores_server_row_witness :
  let st := AuthContext.mkState (Some alice) (Some alice_session) None false in
  AuthContext.profile
    (fst (snd (AuthContext.updateProfile (mkUpdates None (Some "Alice A") None)
                                         (st, gym_alice))))
  = Some (mkProfile "1" (Some "ay") (Some "Alice A") None 10).
Proof.
  cbv zeta.
  destruct (updateProfile_stores_server_row
              (mkUpdates None (Some "Alice A") None)
              (AuthContext.mkState (Some alice) (Some alice_session) None false)
              gym_alice alice (mkProfile "1" (Some "ay") None None 0)
              eq_refl eq_refl eq_refl) as (_ & P & _).
  cbv zeta in P. rewrite P. reflexivity.
Defined.

(** X15. [signIn] and [signOut] set [loading] and have no [finally]: when
    the remote call rejects they reject too, [loading] stays set with
    [user], [session] and [profile] as they were, and the navigator shows
    the spinner. *)
Theorem rejected_auth_call_leaves_spinner :
  forall (st : AuthContext.State) (w : World) (email password : string),
    next_fault w = Throw ->
    fst (AuthContext.signOut (st, w)) = Exn
    /\ fst (snd (AuthContext.signOut (st, w))) = AuthContext.setLoading true st
    /\ fst (AuthContext.signIn email password (st, w)) = Exn
    /\ fst (snd (AuthContext.signIn email password (st, w)))
       = AuthContext.setLoading true st
    /\ AppNavigator.AppNavigator (fst (snd (AuthContext.signOut (st, w))))
       = AppNavigator.LoadingSpinner.
Proof.
  intros st w email password Hf.
  unfold AuthContext.signOut, AuthContext.signIn, authService.signOut,
    authService.signIn, request.
  run_monad. simpl. rewrite Hf. simpl. repeat split.
Qed.

Lemma rejected_auth_call_leaves_spinner_witness :
  let st := AuthContext.mkState (Some alice) (Some alice_session) None false in
  fst (snd (AuthContext.signOut (st, with_faults [Throw] gym_alice)))
  = AuthContext.mkState (Some alice) (Some alice_session) None true.
Proof.
  cbv zeta.
  destruct (rejected_auth_call_leaves_spinner
              (AuthContext.mkState (Some alice) (Some alice_session) None false)
              (with_faults [Throw] gym_alice) "a@gym.app" "pw-a" eq_refl)
    as (_ & E & _).
  rewrite E. reflexivity.
Defined.

(** X16. When the session request of [getInitialSession] does not reject,
    the function returns with [loading] false; with no session to restore
    the store is otherwise untouched, so a fresh store ends on the sign-in
    screen.  When the request rejects, [loading] is left as it was. *)
Theorem getInitialSession_settles :
  forall (st : AuthContext.State) (w : World),
    let out := AuthContext.getInitialSession (st, w) in
    match next_fault w with
    | Throw => fst out = Exn /\ fst (snd out) = st
    | _ =>
        fst out = Ret tt
        /\ AuthContext.loading (fst (snd out)) = false
        /\ ((auth_session w = None \/ next_fault w <> Serve) ->
            fst (snd out) = AuthContext.setLoading false st
            /\ (AuthContext.user st = None ->
                AppNavigator.AppNavigator (fst (snd out)) = AppNavigator.AuthScreen))
    end.
Proof.
  intros [u0 s0 p0 l0] w. cbv zeta.
  unfold AuthContext.getInitialSession, authService.getCurrentSession, request.
  run_monad. destruct (next_fault w) as [|c m|] eqn:Hf; simpl.
  - destruct (auth_session w) as [s|] eqn:Hs; simpl.
    + match goal with
      | |- context [AuthContext.fetchProfile ?i (?st', ?w1)] =>
          destruct (fetchProfile_frame i st' w1) as (R & _ & _ & L);
          destruct (AuthContext.fetchProfile i (st', w1)) as [res [st2 w2]]
      end.
      simpl in *. subst res. simpl. split; [reflexivity|]. split; [reflexivity|].
      intros [H|H]; [discriminate | congruence].
    + split; [reflexivity|]. split; [reflexivity|].
      intros _. split; [reflexivity|]. simpl. intros ->. reflexivity.
  - split; [reflexivity|]. split; [reflexivity|].
    intros _. split; [reflexivity|]. simpl. intros ->. reflexivity.
  - split; reflexivity.
Qed.

(* ===================================================================== *)
(** * The Follow Button, further                                           *)
(* ===================================================================== *)

(** X17. On a profile screen, a press on the button shown as "Following"
    issues [unfollowUser(target)] and nothing else.  When the call reports
    success the button shows "Follow" and the followers count is one less
    than before; when it resolves with an error or rejects, the button
    still shows "Following", the screen is as it was and one alert has
    been raised. *)
Theorem unfollow_press_flips_only_on_success :
  forall (viewer : User) (target : string)
         (b : UI FollowButton.State) (p : UI UserProfileScreen.State) (w : World),
    user_id viewer <> target ->
    cells b = FollowButton.mkState true false false ->
    let call := followService.unfollowUser target w in
    let out := UserProfileScreen.followButton_press (Some viewer) target (b, (p, w)) in
    let b' := fst (snd out) in
    let p' := fst (snd (snd out)) in
    fst out = Ret tt
    /\ snd (snd (snd out)) = snd call
    /\ (if resolved_ok (fst call)
        then cells b' = FollowButton.mkState false false false
             /\ alerts b' = alerts b
             /\ UserProfileScreen.followersCount (cells p')
                = (UserProfileScreen.followersCount (cells p) - 1)%Z
        else cells b' = FollowButton.mkState true false false
             /\ alerts b' = alerts b ++ [toggle_failed_alert]
             /\ p' = p).
Proof.
  intros viewer target [cb al] [pc pal] w Hne Hb. simpl in Hb. subst cb.
  cbv zeta.
  assert (Hself : (user_id viewer =? target) = false) by now apply String.eqb_neq.
  unfold UserProfileScreen.followButton_press, FollowButton.press,
    FollowButton.render, FollowButton.anonymous_or_self,
    FollowButton.handleToggleFollow, UserProfileScreen.handleFollowChange,
    resolved_ok, toggle_failed_alert.
  run_monad. simpl. rewrite ?Hself. simpl.
  destruct (followService.unfollowUser target w) as [[r|] w']; simpl.
  - destruct (truthy (error r)); simpl; repeat split.
  - repeat split.
Qed.

Lemma unfollow_press_flips_only_on_success_witness :
  let b := mkUI (FollowButton.mkState true false false) [] in
  let p := mkUI (UserProfileScreen.mkState None [] 8%Z 0%Z false) [] in
  let w := with_follows [mkFollow "1" "2"] gym_alice in
  let out := UserProfileScreen.followButton_press (Some alice) "2" (b, (p, w)) in
  follows (snd (snd (snd out))) = []
  /\ UserProfileScreen.followersCount (cells (fst (snd (snd out)))) = 7%Z.
Proof.
  cbv zeta.
  destruct (unfollow_press_flips_only_on_success
              alice "2"
              (mkUI (FollowButton.mkState true false false) [])
              (mkUI (UserProfileScreen.mkState None [] 8%Z 0%Z false) [])
              (with_follows [mkFollow "1" "2"] gym_alice))
    as (_ & W & S).
  - simpl. discriminate.
  - reflexivity.
  - cbv zeta in W. rewrite W. split; [vm_compute; reflexivity|].
    replace (resolved_ok (fst (followService.unfollowUser
                                 "2" (with_follows [mkFollow "1" "2"] gym_alice))))
      with true in S by (vm_compute; reflexivity).
    destruct S as (_ & _ & C). cbv zeta in C. rewrite C. reflexivity.
Defined.

(** One press from an idle, rendered button, by what the facade call
    gives. *)
Lemma press_idle (viewer : User) (target : string) (following : bool)
      (al : list (string * string)) (p : UI UserProfileScreen.State) (w : World) :
  user_id viewer <> target ->
  let call := if following then followService.unfollowUser target w
              else followService.followUser target w in
  snd (UserProfileScreen.followButton_press
         (Some viewer) target
         (mkUI (FollowButton.mkState following false false) al, (p, w)))
  = if resolved_ok (fst call)
    then (mkUI (FollowButton.mkState (negb following) false false) al,
          (mkUI (UserProfileScreen.setFollowersCount
                   (fun prev => if negb following then (prev + 1)%Z else (prev - 1)%Z)
                   (cells p)) (alerts p),
           snd call))
    else (mkUI (FollowButton.mkState following false false)
               (al ++ [toggle_failed_alert]),
          (p, snd call)).
Proof.
  intros Hne. cbv zeta.
  assert (Hself : (user_id viewer =? target) = false) by now apply String.eqb_neq.
  unfold UserProfileScreen.followButton_press, FollowButton.press,
    FollowButton.render, FollowButton.anonymous_or_self,
    FollowButton.handleToggleFollow, UserProfileScreen.handleFollowChange,
    resolved_ok, toggle_failed_alert.
  destruct p as [pc pal].
  run_monad. simpl. rewrite ?Hself. simpl.
  destruct following; simpl.
  - destruct (followService.unfollowUser target w) as [[r|] w']; simpl;
      [destruct (truthy (error r))|]; reflexivity.
  - destruct (followService.followUser target w) as [[r|] w']; simpl;
      [destruct (truthy (error r))|]; reflexivity.
Qed.

(** X18. Two presses on the Follow Button of a profile, the follow and
    then the unfollow both reporting success, bring the button, the
    screen with its followers count, and the follow table back to where
    they were; and if the count shown agreed with the backend before the
    first press, it agrees with it after it, with no re-fetch. *)
Theorem follow_then_unfollow_press_round_trip :
  forall (viewer : User) (target : string)
         (b : UI FollowButton.State) (p : UI UserProfileScreen.State) (w : World)
         (r1 : Result unit) (w1 : World) (r2 : Result unit) (w2 : World),
    user_id viewer <> target ->
    cells b = FollowButton.mkState false false false ->
    followService.followUser target w = (Ret r1, w1) ->
    truthy (error r1) = false ->
    followService.unfollowUser target w1 = (Ret r2, w2) ->
    truthy (error r2) = false ->
    let s1 := snd (UserProfileScreen.followButton_press (Some viewer) target (b, (p, w))) in
    let s2 := snd (UserProfileScreen.followButton_press (Some viewer) target s1) in
    fst s2 = b
    /\ fst (snd s2) = p
    /\ follows (snd (snd s2)) = follows w
    /\ (UserProfileScreen.followersCount (cells p) = Z.of_nat (served_followers target w) ->
        UserProfileScreen.followersCount (cells (fst (snd s1)))
        = Z.of_nat (served_followers target (snd (snd s1)))).
Proof.
  intros viewer target [cb al] [[pr wk fc gc ld] pal] w r1 w1 r2 w2
         Hne Hb E1 Ok1 E2 Ok2.
  simpl in Hb. subst cb. cbv zeta.
  pose proof (press_idle viewer target false al
                (mkUI (UserProfileScreen.mkState pr wk fc gc ld) pal) w Hne) as P1.
  cbv zeta in P1. rewrite E1 in P1. simpl in P1. rewrite Ok1 in P1. simpl in P1.
  rewrite P1.
  pose proof (press_idle viewer target true al
                (mkUI (UserProfileScreen.mkState pr wk (fc + 1)%Z gc ld) pal) w1 Hne)
    as P2.
  cbv zeta in P2. rewrite E2 in P2. simpl in P2. rewrite Ok2 in P2. simpl in P2.
  unfold UserProfileScreen.setFollowersCount. simpl. rewrite P2. simpl.
  split; [reflexivity|]. split; [|split].
  - unfold UserProfileScreen.setFollowersCount. simpl.
    replace (fc + 1 - 1)%Z with fc by lia. reflexivity.
  - eapply follow_unfollow_back; eauto.
  - intros Hc. rewrite Hc.
    destruct (followUser_success _ _ _ _ E1 Ok1) as (s & _ & _ & _ & F1 & _).
    rewrite !served_followers_eq, F1, filter_app, length_app. simpl.
    rewrite String.eqb_refl. simpl. lia.
Qed.

Lemma follow_then_unfollow_press_round_trip_witness :
  let b := mkUI (FollowButton.mkState false false false) [] in
  let p := mkUI (UserProfileScreen.mkState None [] 0%Z 0%Z false) [] in
  let s1 := snd (UserProfileScreen.followButton_press (Some alice) "2" (b, (p, gym_alice))) in
  let s2 := snd (UserProfileScreen.followButton_press (Some alice) "2" s1) in
  fst s2 = b /\ fst (snd s2) = p /\ follows (snd (snd s2)) = [].
Proof.
  cbv zeta.
  assert (E1 : followService.followUser "2" gym_alice
               = (Ret (mkResult None None), snd (followService.followUser "2" gym_alice)))
    by (vm_compute; reflexivity).
  assert (E2 : followService.unfollowUser "2" (snd (followService.followUser "2" gym_alice))
               = (Ret (mkResult None None),
                  snd (followService.unfollowUser
                         "2" (snd (followService.followUser "2" gym_alice)))))
    by (vm_compute; reflexivity).
  destruct (follow_then_unfollow_press_round_trip
              alice "2"
              (mkUI (FollowButton.mkState false false false) [])
              (mkUI (UserProfileScreen.mkState None [] 0%Z 0%Z false) [])
              gym_alice _ _ _ _
              ltac:(simpl; discriminate) eq_refl E1 eq_refl E2 eq_refl)
    as (A & B & C & _).
  cbv zeta in A, B, C. split; [exact A|]. split; [exact B | exact C].
Defined.

(** X19. [handleToggleFollow] never rejects, whatever the facade call
    does and whatever the parent's callback does: every failure ends in
    its alert.  A toggle that started (a viewer, no toggle in flight)
    ends with [loading] false.  When the call reports success but the
    callback rejects, the displayed state has flipped all the same and
    the failure alert is raised. *)
Theorem handleToggleFollow_never_rejects :
  forall (P : Type) (target : string) (cb : option (bool -> M (P * World) unit))
         (viewer : option User) (b : UI FollowButton.State) (p : P) (w : World),
    let out := FollowButton.handleToggleFollow target cb viewer (b, (p, w)) in
    fst out = Ret tt
    /\ (FollowButton.loading (cells b) = false ->
        FollowButton.loading (cells (fst (snd out))) = false)
    /\ FollowButton.checkingStatus (cells (fst (snd out)))
       = FollowButton.checkingStatus (cells b)
    /\ forall (f : bool -> M (P * World) unit) (r : Result unit) (w1 : World),
        cb = Some f ->
        viewer <> None ->
        cells b = FollowButton.mkState false false false ->
        followService.followUser target w = (Ret r, w1) ->
        truthy (error r) = false ->
        fst (f true (p, w1)) = Exn ->
        FollowButton.isFollowing (cells (fst (snd out))) = true
        /\ alerts (fst (snd out)) = alerts b ++ [toggle_failed_alert].
Proof.
  intros P target cb viewer [[fl ld ck] al] p w. cbv zeta.
  unfold FollowButton.handleToggleFollow, toggle_failed_alert. run_monad. simpl.
  split; [|split; [|split]].
  - destruct viewer, ld; simpl; try reflexivity.
    destruct fl;
      [destruct (followService.unfollowUser target w) as [[r|] w1]
      |destruct (followService.followUser target w) as [[r|] w1]]; simpl;
      try reflexivity;
      (destruct (truthy (error r)); simpl; [reflexivity|]);
      (destruct cb as [f|]; simpl; [|reflexivity]);
      destruct (f _ (p, w1)) as [[[]|] pw']; reflexivity.
  - intros Hl. simpl in Hl. subst ld. destruct viewer; simpl; try reflexivity.
    destruct fl;
      [destruct (followService.unfollowUser target w) as [[r|] w1]
      |destruct (followService.followUser target w) as [[r|] w1]]; simpl;
      try reflexivity;
      (destruct (truthy (error r)); simpl; [reflexivity|]);
      (destruct cb as [f|]; simpl; [|reflexivity]);
      destruct (f _ (p, w1)) as [[[]|] pw']; reflexivity.
  - destruct viewer, ld; simpl; try reflexivity;
    destruct fl;
      [destruct (followService.unfollowUser target w) as [[r|] w1]
      |destruct (followService.followUser target w) as [[r|] w1]]; simpl;
      try reflexivity;
      (destruct (truthy (error r)); simpl; [reflexivity|]);
      (destruct cb as [f|]; simpl; [|reflexivity]);
      destruct (f _ (p, w1)) as [[[]|] pw']; reflexivity.
  - intros f r w1 -> Hv Hb E Hok Hexn. simpl in Hb. inversion Hb; subst.
    destruct viewer as [v|]; [|congruence]. simpl.
    rewrite E. simpl. rewrite Hok. simpl.
    destruct (f true (p, w1)) as [[[]|] pw']; simpl in *; [discriminate|].
    split; reflexivity.
Qed.

(** A callback that rejects. *)
Lemma handleToggleFollow_never_rejects_witness :
  let failing : bool -> M (unit * World) unit := fun _ s => (Exn, s) in
  let out := FollowButton.handleToggleFollow
               "2" (Some failing) (Some alice)
               (mkUI (FollowButton.mkState false false false) [], (tt, gym_alice)) in
  fst out = Ret tt
  /\ FollowButton.isFollowing (cells (fst (snd out))) = true
  /\ alerts (fst (snd out)) = [toggle_failed_alert].
Proof.
  cbv zeta.
  destruct (handleToggleFollow_never_rejects
              unit "2" (Some (fun (_ : bool) (s : unit * World) => (Exn, s)))
              (Some alice)
              (mkUI (FollowButton.mkState false false false) []) tt gym_alice)
    as (R & _ & _ & H).
  split; [exact R|].
  assert (E : followService.followUser "2" gym_alice
              = (Ret (mkResult None None), snd (followService.followUser "2" gym_alice)))
    by (vm_compute; reflexivity).
  exact (H _ _ _ eq_refl ltac:(discriminate) eq_refl E eq_refl eq_refl).
Defined.

(** X20. For a viewer looking at someone else, after a served existence
    check under a session [checkFollowStatus] has cleared
    [checkingStatus] and the button shows "Following" exactly when the
    follow table holds one row for (session user, target); the state it
    shows is that of the backend's session user. *)
Theorem checkFollowStatus_resolves :
  forall (P : Type) (viewer : User) (target : string)
         (b : UI FollowButton.State) (p : P) (w : World) (s : Session),
    user_id viewer <> target ->
    auth_session w = Some s ->
    next_fault w = Serve ->
    FollowButton.loading (cells b) = false ->
    let out := FollowButton.checkFollowStatus target (Some viewer) (b, (p, w)) in
    let edge := Nat.eqb (length (filter (follow_eqb (mkFollow (user_id (session_user s)) target))
                                        (follows w))) 1 in
    fst out = Ret tt
    /\ cells (fst (snd out)) = FollowButton.mkState edge false false
    /\ alerts (fst (snd out)) = alerts b
    /\ FollowButton.render target (Some viewer) (cells (fst (snd out)))
       = Some (FollowButton.mkButton edge false
                 (FollowButton.Label (if edge then "Following" else "Follow"))).
Proof.
  intros P viewer target [[fl ld ck] al] p w s Hne Hs Hf Hl. simpl in Hl. subst ld.
  cbv zeta.
  assert (Hself : (user_id viewer =? target) = false) by now apply String.eqb_neq.
  pose proof (isFollowing_served_rows w s target Hs Hf) as R.
  unfold FollowButton.checkFollowStatus, FollowButton.render,
    FollowButton.anonymous_or_self.
  run_monad. rewrite Hself. simpl.
  destruct (followService.isFollowing target w) as [res w1]. simpl in R. subst res.
  simpl. rewrite ?Hself. repeat split.
Qed.

Lemma checkFollowStatus_resolves_witness :
  let w := with_follows [mkFollow "1" "2"] gym_alice in
  FollowButton.render
    "2" (Some alice)
    (cells (fst (snd (FollowButton.checkFollowStatus
                        "2" (Some alice) (mkUI FollowButton.initial [], (tt, w))))))
  = Some (FollowButton.mkButton true false (FollowButton.Label "Following")).
Proof.
  cbv zeta.
  destruct (checkFollowStatus_resolves
              unit alice "2" (mkUI FollowButton.initial []) tt
              (with_follows [mkFollow "1" "2"] gym_alice) alice_session
              ltac:(simpl; discriminate) eq_refl eq_refl eq_refl)
    as (_ & _ & _ & R).
  cbv zeta in R. rewrite R. reflexivity.
Defined.

(** X21. With no viewer, or with the viewer looking at their own profile,
    the Follow Button asks the backend nothing, renders nothing in every
    state, and a press does nothing: the component never issues a follow
    of oneself. *)
Theorem followButton_absent_for_anonymous_or_self :
  forall (P : Type) (target : string) (cb : option (bool -> M (P * World) unit))
         (viewer : option User) (b : UI FollowButton.State) (pw : P * World),
    FollowButton.anonymous_or_self target viewer = true ->
    FollowButton.checkFollowStatus target viewer (b, pw)
    = (Ret tt, (mkUI (FollowButton.setCheckingStatus false (cells b)) (alerts b), pw))
    /\ (forall st, FollowButton.render target viewer st = None)
    /\ FollowButton.press target cb viewer (b, pw) = (Ret tt, (b, pw)).
Proof.
  intros P target cb viewer [[fl ld ck] al] pw H.
  unfold FollowButton.checkFollowStatus, FollowButton.press, FollowButton.render.
  run_monad. rewrite H. simpl. split; [reflexivity|]. split.
  - intros st. now rewrite orb_true_r.
  - now rewrite orb_true_r.
Qed.

Lemma followButton_absent_for_anonymous_or_self_witness :
  let b := mkUI (FollowButton.mkState false false false) [] in
  UserProfileScreen.followButton_press
    (Some alice) "1" (b, (mkUI UserProfileScreen.initial [], gym_alice))
  = (Ret tt, (b, (mkUI UserProfileScreen.initial [], gym_alice))).
Proof.
  cbv zeta.
  exact (proj2 (proj2 (followButton_absent_for_anonymous_or_self
                         (UI UserProfileScreen.State) "1"
                         (Some UserProfileScreen.handleFollowChange) (Some alice)
                         (mkUI (FollowButton.mkState false false false) [])
                         (mkUI UserProfileScreen.initial [], gym_alice)
                         eq_refl))).
Defined.

(* ===================================================================== *)
(** * The workout card and the like                                        *)
(* ===================================================================== *)

Lemma isLiked_enrich (u : User) (w : World) (rw : WorkoutRow) :
  WorkoutCard.isLiked (Some u) (workoutService.enrich w rw)
  = liked_by (mkLike (user_id u) (workout_id rw)) w.
Proof.
  unfold WorkoutCard.isLiked, workoutService.enrich, workoutService.likes_of,
    liked_by, like_eqb. simpl.
  induction (workout_likes w) as [|g l IH]; simpl; [reflexivity|].
  rewrite (String.eqb_sym (workout_id rw) (like_workout_id g)).
  rewrite (String.eqb_sym (user_id u) (like_user_id g)).
  destruct (like_workout_id g =? workout_id rw); simpl.
  - rewrite IH. now rewrite andb_true_r.
  - rewrite IH. now rewrite andb_false_r.
Qed.

Lemma likeCount_enrich (w : World) (rw : WorkoutRow) :
  likeCount (workoutService.enrich w rw)
  = length (workoutService.likes_of (workout_id rw) (workout_likes w)).
Proof. unfold likeCount. simpl. apply length_map. Qed.

Lemma likes_of_remove_same (l : Like) (L : list Like) :
  length (workoutService.likes_of (like_workout_id l)
            (filter (fun g => negb (like_eqb l g)) L))
  + length (filter (like_eqb l) L)
  = length (workoutService.likes_of (like_workout_id l) L).
Proof.
  unfold workoutService.likes_of.
  induction L as [|g L IH]; simpl; [reflexivity|].
  destruct (like_eqb l g) eqn:E; simpl.
  - apply like_eqb_eq in E. subst g. rewrite String.eqb_refl. simpl. lia.
  - destruct (like_workout_id g =? like_workout_id l); simpl; lia.
Qed.

Lemma likes_of_remove_other (l : Like) (id : string) (L : list Like) :
  like_workout_id l <> id ->
  workoutService.likes_of id (filter (fun g => negb (like_eqb l g)) L)
  = workoutService.likes_of id L.
Proof.
  intros Hne. unfold workoutService.likes_of.
  induction L as [|g L IH]; simpl; [reflexivity|].
  destruct (like_eqb l g) eqn:E; simpl.
  - apply like_eqb_eq in E. subst g.
    apply String.eqb_neq in Hne. rewrite Hne. exact IH.
  - destruct (like_workout_id g =? id); simpl; now rewrite IH.
Qed.

Lemma existsb_filter_keep {A} (p q : A -> bool) (L : list A) :
  (forall g, p g = true -> q g = true) ->
  existsb p (filter q L) = existsb p L.
Proof.
  intros H. induction L as [|g L IH]; simpl; [reflexivity|].
  destruct (q g) eqn:Eq; simpl.
  - now rewrite IH.
  - destruct (p g) eqn:Ep; [|exact IH].
    apply H in Ep. congruence.
Qed.

Lemma like_eqb_other (u a b : string) :
  a <> b -> like_eqb (mkLike u a) (mkLike u b) = false.
Proof.
  intros H. unfold like_eqb. simpl. apply String.eqb_neq in H. rewrite H.
  apply andb_false_r.
Qed.

(** X22. After a [toggleWorkoutLike] that reports no error, the card of
    the toggled workout, as the next fetch joins it, shows the heart
    flipped for the session user, the reported [liked] being the new
    state, and a like count one up or one down accordingly; the cards of
    the other workouts show what they showed. *)
Theorem toggle_moves_like_count_by_one :
  forall (w : World) (workoutId : string) (r : ToggleResult) (w1 : World),
    workoutService.toggleWorkoutLike workoutId w = (Ret r, w1) ->
    truthy (toggle_error r) = false ->
    exists s, auth_session w = Some s /\
      forall rw : WorkoutRow,
        let viewer := Some (session_user s) in
        let before := workoutService.enrich w rw in
        let after := workoutService.enrich w1 rw in
        if workout_id rw =? workoutId
        then liked r = Some (WorkoutCard.isLiked viewer after)
             /\ WorkoutCard.isLiked viewer after = negb (WorkoutCard.isLiked viewer before)
             /\ Z.of_nat (likeCount after)
                = (Z.of_nat (likeCount before)
                   + (if WorkoutCard.isLiked viewer after then 1 else -1))%Z
        else likeCount after = likeCount before
             /\ WorkoutCard.isLiked viewer after = WorkoutCard.isLiked viewer before.
Proof.
  intros w workoutId r w1 E Hok.
  destruct (toggle_success _ _ _ _ E Hok) as (s & Hs & _ & _ & _ & _ & C).
  exists s. split; [exact Hs|]. intros rw. cbv zeta in *.
  set (l := mkLike (user_id (session_user s)) workoutId) in *.
  rewrite !isLiked_enrich, !likeCount_enrich.
  destruct (workout_id rw =? workoutId) eqn:Eid.
  - apply String.eqb_eq in Eid. rewrite Eid. fold l.
    destruct C as [(F & Lk & T & _) | (F & Lk & T & _)].
    + destruct (filter_singleton_existsb _ _ _ F) as [Hex _].
      assert (Hgone : liked_by l w1 = false).
      { unfold liked_by. rewrite T.
        destruct (existsb (like_eqb l) (filter _ _)) eqn:E'; [|reflexivity].
        apply existsb_exists in E' as (x & Hin & Hx).
        apply filter_In in Hin as [_ Hn]. rewrite Hx in Hn. discriminate. }
      unfold liked_by in *. rewrite Hgone, Hex. rewrite T.
      split; [exact Lk|]. split; [reflexivity|].
      pose proof (likes_of_remove_same l (workout_likes w)) as Hcnt.
      rewrite F in Hcnt. simpl in Hcnt. lia.
    + assert (Hthere : liked_by l w1 = true).
      { unfold liked_by. rewrite T, existsb_app. simpl.
        rewrite like_eqb_refl. now rewrite orb_true_r. }
      rewrite Hthere, F. rewrite T.
      split; [exact Lk|]. split; [reflexivity|].
      unfold workoutService.likes_of. rewrite filter_app, length_app. simpl.
      rewrite String.eqb_refl. simpl. lia.
  - apply String.eqb_neq in Eid.
    assert (Hl : like_workout_id l <> workout_id rw) by (simpl; congruence).
    assert (Hoth : like_eqb (mkLike (user_id (session_user s)) (workout_id rw)) l = false)
      by (apply like_eqb_other; exact Eid).
    destruct C as [(F & Lk & T & _) | (F & Lk & T & _)]; rewrite T.
    + split.
      * now rewrite likes_of_remove_other.
      * unfold liked_by. rewrite T. apply existsb_filter_keep.
        intros g Hg. apply like_eqb_eq in Hg. subst g.
        unfold l. rewrite like_eqb_other; [reflexivity | congruence].
    + split.
      * unfold workoutService.likes_of. rewrite filter_app, length_app. simpl.
        apply String.eqb_neq in Hl. simpl in Hl. rewrite Hl. simpl. lia.
      * unfold liked_by. rewrite T, existsb_app. simpl. rewrite Hoth.
        simpl. now rewrite orb_false_r.
Qed.

Lemma toggle_moves_like_count_by_one_witness :
  let w1 := snd (workoutService.toggleWorkoutLike "w1" gym_alice) in
  let rw := mkWorkoutRow "w1" "2" "Leg day" true 5 in
  likeCount (workoutService.enrich gym_alice rw) = 0
  /\ likeCount (workoutService.enrich w1 rw) = 1
  /\ WorkoutCard.isLiked (Some alice) (workoutService.enrich w1 rw) = true.
Proof.
  cbv zeta. split; [reflexivity|].
  assert (E : workoutService.toggleWorkoutLike "w1" gym_alice
              = (Ret (mkToggle (Some true) None),
                 snd (workoutService.toggleWorkoutLike "w1" gym_alice)))
    by (vm_compute; reflexivity).
  destruct (toggle_moves_like_count_by_one _ _ _ _ E eq_refl) as (s & Hs & H).
  simpl in Hs. inversion Hs; subst s.
  specialize (H (mkWorkoutRow "w1" "2" "Leg day" true 5)). cbv zeta in H.
  simpl (workout_id _ =? "w1") in H. destruct H as (L & _ & C).
  cbn [liked] in L.
  assert (Li : WorkoutCard.isLiked
                 (Some (session_user alice_session))
                 (workoutService.enrich
                    (snd (workoutService.toggleWorkoutLike "w1" gym_alice))
                    (mkWorkoutRow "w1" "2" "Leg day" true 5)) = true)
    by congruence.
  rewrite Li in C.
  assert (B0 : likeCount (workoutService.enrich
                            gym_alice (mkWorkoutRow "w1" "2" "Leg day" true 5)) = 0)
    by reflexivity.
  rewrite B0 in C. split; [lia | exact Li].
Defined.

(** [handleWorkoutLike] of the Home screen never rejects. *)
Lemma HomeScreen_handleWorkoutLike_resolves (id : string)
      (u : UI HomeScreen.State) (w : World) :
  fst (HomeScreen.handleWorkoutLike id (u, w)) = Ret tt.
Proof.
  unfold HomeScreen.handleWorkoutLike. run_monad.
  destruct (workoutService.toggleWorkoutLike id w) as [[r|] w1]; simpl;
    [|reflexivity].
  destruct (truthy (toggle_error r)); simpl; [reflexivity|].
  destruct (fetchWorkouts_spec true u w1) as (E & _).
  destruct (HomeScreen.fetchWorkouts true (u, w1)) as [[[]|] s']; simpl in *;
    [reflexivity | discriminate].
Qed.

(** X23. A press on the heart of a card on the Home screen: while a like
    of that card is in flight it does nothing; otherwise it never rejects
    and ends with [isLiking] false, because the screen's
    [handleWorkoutLike] turns every failure into an alert.  When the
    toggle fails, the list is kept, the "like" alert is raised and no list
    request is issued.  The card itself has no [finally]: with a handler
    that rejects, [isLiking] would stay set. *)
Theorem home_card_like_press :
  forall (id : string) (u : UI HomeScreen.State) (w : World),
    let onLike := HomeScreen.handleWorkoutLike id in
    WorkoutCard.handleLike (Some onLike) (true, (u, w)) = (Ret tt, (true, (u, w)))
    /\ fst (WorkoutCard.handleLike (Some onLike) (false, (u, w))) = Ret tt
    /\ snd (WorkoutCard.handleLike (Some onLike) (false, (u, w)))
       = (false, snd (onLike (u, w)))
    /\ (like_failed id w = true ->
        snd (onLike (u, w))
        = (mkUI (cells u) (alerts u ++ [("Error", "Failed to update like")]),
           snd (workoutService.toggleWorkoutLike id w)))
    /\ (forall (W : Type) (rejecting : M W unit) (s : W),
           fst (rejecting s) = Exn ->
           fst (WorkoutCard.handleLike (Some rejecting) (false, s)) = Exn
           /\ fst (snd (WorkoutCard.handleLike (Some rejecting) (false, s))) = true).
Proof.
  intros id u w. cbv zeta.
  split; [reflexivity|].
  pose proof (HomeScreen_handleWorkoutLike_resolves id u w) as R.
  split; [|split; [|split]].
  - unfold WorkoutCard.handleLike. run_monad. simpl.
    destruct (HomeScreen.handleWorkoutLike id (u, w)) as [res s']. simpl in R.
    subst res. reflexivity.
  - unfold WorkoutCard.handleLike. run_monad. simpl.
    destruct (HomeScreen.handleWorkoutLike id (u, w)) as [res s']. simpl in R.
    subst res. reflexivity.
  - unfold HomeScreen.handleWorkoutLike, like_failed. run_monad.
    destruct (workoutService.toggleWorkoutLike id w) as [[r|] w1]; simpl.
    + intros H. rewrite H. reflexivity.
    + reflexivity.
  - intros W rejecting s H. unfold WorkoutCard.handleLike. run_monad. simpl.
    destruct (rejecting s) as [[[]|] s']; simpl in *; [discriminate|].
    split; reflexivity.
Qed.

(** Alice is signed out on the backend: the like fails, the list stays. *)
Lemma home_card_like_press_witness :
  let u := mkUI (HomeScreen.mkState
                   [workoutService.enrich gym (mkWorkoutRow "w1" "2" "Leg day" true 5)]
                   false false) [] in
  snd (WorkoutCard.handleLike (Some (HomeScreen.handleWorkoutLike "w1")) (false, (u, gym)))
  = (false, (mkUI (cells u) [("Error", "Failed to update like")],
             with_log [RqGetUser] gym)).
Proof.
  cbv zeta.
  destruct (home_card_like_press
              "w1"
              (mkUI (HomeScreen.mkState
                       [workoutService.enrich gym (mkWorkoutRow "w1" "2" "Leg day" true 5)]
                       false false) [])
              gym) as (_ & _ & S & F & _).
  cbv zeta in S, F. rewrite S, F; [reflexivity | vm_compute; reflexivity].
Defined.

(** The short circuit of [getFollowingWorkouts] for a user who follows
    nobody. *)
Lemma getFollowingWorkouts_follows_nobody_core (w : World) (s : Session) :
  auth_session w = Some s ->
  (forall f, In f (follows w) -> follower_id f <> user_id (session_user s)) ->
  next_fault w = Serve ->
  workoutService.getFollowingWorkouts w
  = (Ret (mkResult (Some []) None),
     with_faults (tl (faults w))
       (with_log (log w ++ [RqGetUser;
                            RqSelectFollowing (user_id (session_user s))]) w)).
Proof.
  intros Hs Hno Hf.
  unfold workoutService.getFollowingWorkouts, auth_getUser,
    workoutService.select_following, request.
  run_monad. rewrite Hs. simpl.
  assert (Hnf : next_fault (with_log (log w ++ [RqGetUser]) w) = Serve)
    by exact Hf.
  rewrite Hnf. simpl. rewrite filter_none.
  - simpl. rewrite app_two. reflexivity.
  - intros f Hin. apply String.eqb_neq. now apply Hno.
Qed.

(* ===================================================================== *)
(** * The other list screens                                               *)
(* ===================================================================== *)

(** X24. The Following screen's fetch: with no session on the backend the
    facade's [{ data: [], error }] counts as a failure, so the list on
    screen is kept and the alert is raised; with a session, a served
    follow-list query and nobody followed, the list becomes empty and no
    alert is raised.  In both cases [loading] ends false. *)
Theorem FollowingScreen_fetch_edges :
  forall (isRefresh : bool) (u : UI FollowingScreen.State) (w : World),
    let out := FollowingScreen.fetchFollowingWorkouts isRefresh (u, w) in
    fst out = Ret tt
    /\ FollowingScreen.loading (cells (fst (snd out))) = false
    /\ (auth_session w = None ->
        FollowingScreen.workouts (cells (fst (snd out)))
        = FollowingScreen.workouts (cells u)
        /\ alerts (fst (snd out)) = alerts u ++ [("Error", "Failed to load workouts")])
    /\ (forall s, auth_session w = Some s ->
                  (forall f, In f (follows w) -> follower_id f <> user_id (session_user s)) ->
                  next_fault w = Serve ->
                  FollowingScreen.workouts (cells (fst (snd out))) = []
                  /\ alerts (fst (snd out)) = alerts u).
Proof.
  intros isRefresh [[ws ld rf] al] w. cbv zeta.
  assert (Hgen : forall res w1,
             workoutService.getFollowingWorkouts w = (res, w1) ->
             fst (FollowingScreen.fetchFollowingWorkouts
                    isRefresh (mkUI (FollowingScreen.mkState ws ld rf) al, w)) = Ret tt
             /\ FollowingScreen.loading
                  (cells (fst (snd (FollowingScreen.fetchFollowingWorkouts
                     isRefresh (mkUI (FollowingScreen.mkState ws ld rf) al, w))))) = false).
  { intros res w1 E. unfold FollowingScreen.fetchFollowingWorkouts. run_monad.
    destruct isRefresh; simpl; rewrite E; destruct res as [r|]; simpl;
      try destruct (truthy (error r)); simpl; split; reflexivity. }
  destruct (workoutService.getFollowingWorkouts w) as [res w1] eqn:E.
  destruct (Hgen res w1 eq_refl) as [G1 G2].
  split; [exact G1|]. split; [exact G2|]. split.
  - intros Hs.
    assert (E' : workoutService.getFollowingWorkouts w
                 = (Ret (mkResult (Some []) (Some NotAuthenticated)),
                    with_log (log w ++ [RqGetUser]) w)).
    { unfold workoutService.getFollowingWorkouts, auth_getUser. run_monad.
      now rewrite Hs. }
    unfold FollowingScreen.fetchFollowingWorkouts. run_monad.
    destruct isRefresh; simpl; rewrite E'; simpl; split; reflexivity.
  - intros s Hs Hno Hf.
    pose proof (getFollowingWorkouts_follows_nobody_core w s Hs Hno Hf) as E'.
    unfold FollowingScreen.fetchFollowingWorkouts. run_monad.
    destruct isRefresh; simpl; rewrite E'; simpl; split; reflexivity.
Qed.

Lemma FollowingScreen_fetch_edges_witness :
  let u := mkUI (FollowingScreen.mkState
                   [workoutService.enrich gym (mkWorkoutRow "w1" "2" "Leg day" true 5)]
                   false false) [] in
  FollowingScreen.workouts
    (cells (fst (snd (FollowingScreen.onFocus (u, gym)))))
  = FollowingScreen.workouts (cells u)
  /\ FollowingScreen.workouts
       (cells (fst (snd (FollowingScreen.onFocus (u, gym_alice))))) = [].
Proof.
  cbv zeta. split.
  - destruct (FollowingScreen_fetch_edges
                false
                (mkUI (FollowingScreen.mkState
                         [workoutService.enrich gym (mkWorkoutRow "w1" "2" "Leg day" true 5)]
                         false false) [])
                gym) as (_ & _ & A & _).
    exact (proj1 (A eq_refl)).
  - destruct (FollowingScreen_fetch_edges
                false
                (mkUI (FollowingScreen.mkState
                         [workoutService.enrich gym (mkWorkoutRow "w1" "2" "Leg day" true 5)]
                         false false) [])
                gym_alice) as (_ & _ & _ & B).
    refine (proj1 (B alice_session eq_refl _ eq_refl)).
    simpl. intros f [].
Defined.

(** One run of [fetchUserWorkouts] with a user, whatever the request
    meets. *)
Lemma fetchUserWorkouts_flags (v : User) (isRefresh : bool)
      (u : UI WorkoutsScreen.State) (w : World) :
  let out := WorkoutsScreen.fetchUserWorkouts (Some v) isRefresh (u, w) in
  fst out = Ret tt
  /\ WorkoutsScreen.loading (cells (fst (snd out))) = false
  /\ WorkoutsScreen.refreshing (cells (fst (snd out)))
     = (if isRefresh then false else WorkoutsScreen.refreshing (cells u)).
Proof.
  unfold WorkoutsScreen.fetchUserWorkouts. destruct u as [[ws ld rf] al].
  run_monad.
  destruct isRefresh; simpl;
    destruct (workoutService.getUserWorkouts (user_id v) w) as [[r|] w1]; simpl;
    try destruct (truthy (error r)); simpl; repeat split.
Qed.

(** X25. On the My Workouts screen the fetch starts with
    [if (!user) return], before its [try]: with a user, a focus or a
    pull-to-refresh ends with [loading] false and a pull-to-refresh with
    [refreshing] false, whatever the request meets; with no user nothing
    is requested, [loading] keeps its value and a pull-to-refresh leaves
    [refreshing] set. *)
Theorem WorkoutsScreen_flags :
  forall (user : option User) (u : UI WorkoutsScreen.State) (w : World),
    let focus := WorkoutsScreen.onFocus user (u, w) in
    let pull := WorkoutsScreen.onRefresh user (u, w) in
    fst focus = Ret tt /\ fst pull = Ret tt
    /\ match user with
       | Some _ =>
           WorkoutsScreen.loading (cells (fst (snd focus))) = false
           /\ WorkoutsScreen.loading (cells (fst (snd pull))) = false
           /\ WorkoutsScreen.refreshing (cells (fst (snd pull))) = false
       | None =>
           snd focus = (u, w)
           /\ snd (snd pull) = w
           /\ WorkoutsScreen.loading (cells (fst (snd pull)))
              = WorkoutsScreen.loading (cells u)
           /\ WorkoutsScreen.refreshing (cells (fst (snd pull))) = true
       end.
Proof.
  intros [v|] u w; cbv zeta.
  - unfold WorkoutsScreen.onFocus, WorkoutsScreen.onRefresh. run_monad.
    destruct (fetchUserWorkouts_flags v false u w) as (A & B & _).
    match goal with
    | |- context [WorkoutsScreen.fetchUserWorkouts (Some v) true (?u', w)] =>
        destruct (fetchUserWorkouts_flags v true u' w) as (C & D & E');
        destruct (WorkoutsScreen.fetchUserWorkouts (Some v) true (u', w))
          as [res [u2 w2]]
    end.
    destruct (WorkoutsScreen.fetchUserWorkouts (Some v) false (u, w))
      as [res0 [u1 w1]].
    simpl in *. auto.
  - destruct u as [[ws ld rf] al]. repeat split.
Qed.

(** X26. On the own-profile screen the two counts are applied one by
    one: a count whose request is answered with an error keeps the value
    on screen, the other is still applied; when either request rejects
    neither is applied.  [loading] ends false in every case and nothing
    is alerted. *)
Theorem ProfileScreen_counts_apply_independently :
  forall (v : User) (u : UI ProfileScreen.State) (w : World),
    let a := followService.getFollowersCount (user_id v) w in
    let b := followService.getFollowingCount (user_id v) (snd a) in
    let out := ProfileScreen.fetchFollowCounts (Some v) (u, w) in
    fst out = Ret tt
    /\ ProfileScreen.loading (cells (fst (snd out))) = false
    /\ alerts (fst (snd out)) = alerts u
    /\ snd (snd out) = snd b
    /\ match fst a, fst b with
       | Ret ra, Ret rb =>
           ProfileScreen.followersCount (cells (fst (snd out)))
           = (if truthy (count_error ra) then ProfileScreen.followersCount (cells u)
              else Z.of_nat (count ra))
           /\ ProfileScreen.followingCount (cells (fst (snd out)))
              = (if truthy (count_error rb) then ProfileScreen.followingCount (cells u)
                 else Z.of_nat (count rb))
       | _, _ =>
           ProfileScreen.followersCount (cells (fst (snd out)))
           = ProfileScreen.followersCount (cells u)
           /\ ProfileScreen.followingCount (cells (fst (snd out)))
              = ProfileScreen.followingCount (cells u)
       end.
Proof.
  intros v [[fc gc ld] al] w. cbv zeta.
  unfold ProfileScreen.fetchFollowCounts, attempt, settle. run_monad. simpl.
  destruct (followService.getFollowersCount (user_id v) w) as [ra w1]. simpl.
  destruct (followService.getFollowingCount (user_id v) w1) as [rb w2]. simpl.
  destruct ra as [ra|], rb as [rb|]; simpl; try (repeat split; reflexivity).
  destruct (truthy (count_error ra)), (truthy (count_error rb)); simpl;
    repeat split.
Qed.

(** X27. [formatDuration] shows nothing for a missing or zero duration.
    A positive duration under an hour is shown in minutes; from an hour
    on it is split into whole hours and the minutes left, which are
    below 60 and are left out when they are zero. *)
Theorem formatDuration_splits :
  forall m : Z,
    WorkoutCard.formatDuration None = None
    /\ WorkoutCard.formatDuration (Some 0%Z) = None
    /\ ((0 < m < 60)%Z ->
        WorkoutCard.formatDuration (Some m) = Some (WorkoutCard.show m ++ "m")%string)
    /\ ((60 <= m)%Z ->
        exists h r : Z,
          (m = 60 * h + r /\ 1 <= h /\ 0 <= r < 60)%Z
          /\ WorkoutCard.formatDuration (Some m)
             = Some (if (r =? 0)%Z then (WorkoutCard.show h ++ "h")%string
                     else (WorkoutCard.show h ++ "h " ++ WorkoutCard.show r ++ "m")%string)).
Proof.
  intros m. split; [reflexivity|]. split; [reflexivity|]. split.
  - intros [H0 H1]. unfold WorkoutCard.formatDuration.
    destruct (m =? 0)%Z eqn:E0; [apply Z.eqb_eq in E0; lia|].
    destruct (m <? 60)%Z eqn:E1; [reflexivity|]. apply Z.ltb_ge in E1. lia.
  - intros H. exists (m / 60)%Z, (Z.rem m 60). split.
    + rewrite Z.rem_mod_nonneg by lia.
      pose proof (Z.div_mod m 60 ltac:(lia)).
      pose proof (Z.mod_pos_bound m 60 ltac:(lia)).
      assert (1 <= m / 60)%Z by (apply Z.div_le_lower_bound; lia).
      lia.
    + unfold WorkoutCard.formatDuration.
      destruct (m =? 0)%Z eqn:E0; [apply Z.eqb_eq in E0; lia|].
      destruct (m <? 60)%Z eqn:E1; [apply Z.ltb_lt in E1; lia|].
      cbv zeta. destruct (Z.rem m 60 =? 0)%Z; reflexivity.
Qed.

Example formatDuration_samples :
  WorkoutCard.formatDuration (Some 45%Z) = Some "45m"
  /\ WorkoutCard.formatDuration (Some 120%Z) = Some "2h"
  /\ WorkoutCard.formatDuration (Some 135%Z) = Some "2h 15m".
Proof. repeat split. Qed.

(** X28. After a served fetch, on focus or on pull-to-refresh, the Home
    screen shows at most 20 workouts, all public rows of the table, newest
    first, each with the number of likes the table holds for it; no alert
    is raised. *)
Theorem HomeScreen_served_fetch_shows_feed :
  forall (isRefresh : bool) (u : UI HomeScreen.State) (w : World),
    next_fault w = Serve ->
    let out := HomeScreen.fetchWorkouts isRefresh (u, w) in
    let shown := HomeScreen.workouts (cells (fst (snd out))) in
    alerts (fst (snd out)) = alerts u
    /\ length shown <= 20
    /\ StronglySorted newest_first (map row shown)
    /\ (forall x, In x shown ->
                  In (row x) (workouts w) /\ is_public (row x) = true
                  /\ likeCount x
                     = length (workoutService.likes_of (workout_id (row x))
                                                       (workout_likes w))).
Proof.
  intros isRefresh [[ws ld rf] al] w Hf. cbv zeta.
  destruct (select_workouts_served (RqSelectPublicWorkouts 20)
              (fun r => is_public r) (Some 20) w Hf)
    as (fetched & E & Hs & Hin & _ & Hlen).
  assert (Hshown : HomeScreen.workouts
                     (cells (fst (snd (HomeScreen.fetchWorkouts
                        isRefresh (mkUI (HomeScreen.mkState ws ld rf) al, w))))) = fetched
                   /\ alerts (fst (snd (HomeScreen.fetchWorkouts
                        isRefresh (mkUI (HomeScreen.mkState ws ld rf) al, w)))) = al).
  { unfold HomeScreen.fetchWorkouts, HomeScreen.fetchWorkouts_begin,
      HomeScreen.fetchWorkouts_resume, workoutService.getPublicWorkouts.
    run_monad. destruct isRefresh; simpl; rewrite E; simpl; split; reflexivity. }
  destruct Hshown as [-> ->]. split; [reflexivity|].
  split; [now apply Hlen|]. split; [exact Hs|].
  intros x Hx. destruct (Hin x Hx) as (A & B & C).
  split; [exact A|]. split; [exact B|].
  rewrite C at 1. apply likeCount_enrich.
Qed.

Lemma HomeScreen_served_fetch_shows_feed_witness :
  length (HomeScreen.workouts
            (cells (fst (snd (HomeScreen.fetchWorkouts
                                false (mkUI HomeScreen.initial [], gym)))))) <= 20.
Proof.
  destruct (HomeScreen_served_fetch_shows_feed
              false (mkUI HomeScreen.initial []) gym eq_refl) as (_ & L & _).
  exact L.
Defined.

Lemma formatDuration_splits_witness :
  WorkoutCard.formatDuration (Some 45%Z) = Some "45m".
Proof.
  rewrite (proj1 (proj2 (proj2 (formatDuration_splits 45%Z)))) by lia.
  reflexivity.
Defined.
